(** * gdeltloader: a shallow embedding of [gdeltloader.py]

    The script downloads the GDELT 2.0 file lists, fetches the zip archives
    they name, checks each download against the MD5 of the manifest, records
    verified downloads in MongoDB and unpacks the archives.  With [--mapgeo]
    it instead runs one aggregation pipeline over the event collection.

    The embedding keeps the shape of the script: [compute_md5], [local_path],
    [download_file] and [extract_zip_file] are the four functions of the
    module, [main] is the [__main__] block.  State (working directory, the
    database, standard output) is threaded through a small state-and-error
    monad; the outside world (HTTP servers, the clock, the zip decoder) is a
    record of oracles.

    What the model leaves out.  The working directory is flat, with no
    sub-directories and no permissions.  Files hold bytes, and text is its
    UTF-8 encoding, as on a system whose locale is UTF-8.  The manifest is
    read in one go when the loop starts, and an archive is decoded in one go
    when it is opened.  The database is always reachable, and the [_id] that
    the driver adds to an inserted document is not recorded.  Of the
    aggregation language only what the script uses is interpreted. *)

From Stdlib Require Import ZArith Ascii String List Lia Bool.
From stdpp Require Import base option gmap strings list fin_maps.

Local Open Scope string_scope.
Local Set Warnings "-register-all".

(** ** Python built-ins used by the script *)

Module Py.

(** Strings are byte strings: one [ascii] per byte.  Text files are read
    and written in UTF-8, so a text and its encoding are the same value. *)

Definition byte_of (c : ascii) : Z := Z.of_N (N_of_ascii c).
Definition chr (z : Z) : ascii := ascii_of_N (Z.to_N (z mod 256)).

Fixpoint bytes_of (s : string) : list Z :=
  match s with
  | EmptyString => []
  | String c r => byte_of c :: bytes_of r
  end.

Fixpoint of_bytes (l : list Z) : string :=
  match l with
  | [] => EmptyString
  | b :: r => String (chr b) (of_bytes r)
  end.

(** [s.split(sep)] for a one-character separator: never the empty list. *)
Fixpoint split_on (sep : ascii) (s : string) : list string :=
  match s with
  | EmptyString => [EmptyString]
  | String c r =>
      if Ascii.eqb c sep then EmptyString :: split_on sep r
      else match split_on sep r with
           | [] => [String c EmptyString]
           | w :: ws => String c w :: ws
           end
  end.

(** [str.isspace] on the bytes below 128: tab, LF, VT, FF, CR, the four
    separators 0x1c..0x1f and the blank. *)
Definition is_space (c : ascii) : bool :=
  let n := byte_of c in
  ((9 <=? n) && (n <=? 13) || (28 <=? n) && (n <=? 32))%Z.

(** [s.split()]: maximal runs of non-blank characters. *)
Fixpoint split_ws_aux (cur : string) (s : string) : list string :=
  match s with
  | EmptyString => if String.eqb cur EmptyString then [] else [cur]
  | String c r =>
      if is_space c
      then if String.eqb cur EmptyString then split_ws_aux EmptyString r
           else cur :: split_ws_aux EmptyString r
      else split_ws_aux (cur ++ String c EmptyString) r
  end.

Definition split_ws (s : string) : list string := split_ws_aux EmptyString s.

Definition is_digit (c : ascii) : bool :=
  let n := byte_of c in ((48 <=? n) && (n <=? 57))%Z.

(** Digits of [int(s)], single underscores allowed between digits. *)
Fixpoint int_digits (acc : Z) (after_digit : bool) (s : string) : option Z :=
  match s with
  | EmptyString => if after_digit then Some acc else None
  | String c r =>
      if is_digit c then int_digits (10 * acc + (byte_of c - 48))%Z true r
      else if Ascii.eqb c "_"%char
           then if after_digit then int_digits acc false r else None
           else None
  end.

(** [int(s)] on a blank-free byte string; [None] is [ValueError]. *)
Definition int (s : string) : option Z :=
  match s with
  | String "-" r => Z.opp <$> int_digits 0 false r
  | String "+" r => int_digits 0 false r
  | _ => int_digits 0 false s
  end.

Definition digit_char (d : Z) : ascii := chr (48 + d).

Fixpoint str_nat_aux (fuel : nat) (n : Z) (acc : string) : string :=
  match fuel with
  | O => acc
  | S f =>
      let acc' := String (digit_char (n mod 10)) acc in
      if (n <? 10)%Z then acc' else str_nat_aux f (n / 10)%Z acc'
  end.

(** [str(n)] for an integer, as an f-string formats it. *)
Definition str_int (n : Z) : string :=
  if (n <? 0)%Z
  then String "-" (str_nat_aux (Z.to_nat (Z.log2 (- n)) + 1) (- n) EmptyString)
  else str_nat_aux (Z.to_nat (Z.log2 n) + 1) n EmptyString.

(** Two digits, zero padded: [%m], [%d], [%H], [%M], [%S] of strftime. *)
Definition pad2 (n : Z) : string :=
  String (digit_char ((n / 10) mod 10)) (String (digit_char (n mod 10)) EmptyString).

Definition starts_with (c : ascii) (s : string) : bool :=
  match s with
  | String d _ => Ascii.eqb c d
  | EmptyString => false
  end.

Definition LF : ascii := chr 10.
Definition CR : ascii := chr 13.
Definition nl : string := String LF EmptyString.

(** Lines of a binary stream: cut after every LF, terminators kept. *)
Fixpoint lines_aux (cur : string) (s : string) : list string :=
  match s with
  | EmptyString => if String.eqb cur EmptyString then [] else [cur]
  | String c r =>
      if Ascii.eqb c LF
      then (cur ++ nl) :: lines_aux EmptyString r
      else lines_aux (cur ++ String c EmptyString) r
  end.

Definition byte_lines (s : string) : list string := lines_aux EmptyString s.

(** Universal newlines of a file opened in text mode: CR LF and a lone
    CR both read as LF. *)
Fixpoint universal_newlines (s : string) : string :=
  match s with
  | EmptyString => EmptyString
  | String c r =>
      if Ascii.eqb c CR
      then match r with
           | String d r' =>
               if Ascii.eqb d LF then String LF (universal_newlines r')
               else String LF (universal_newlines r)
           | EmptyString => nl
           end
      else String c (universal_newlines r)
  end.

Definition text_lines (s : string) : list string :=
  byte_lines (universal_newlines s).

End Py.

(** ** [hashlib.md5] (RFC 1321) *)

Module MD5.

Local Open Scope Z_scope.

Definition mask32 : Z := 0xffffffff.
Definition w32 (x : Z) : Z := Z.land x mask32.
Definition not32 (x : Z) : Z := Z.lxor (w32 x) mask32.
Definition rotl32 (x c : Z) : Z :=
  w32 (Z.lor (Z.shiftl x c) (Z.shiftr (w32 x) (32 - c))).

Definition K : list Z :=
  [ 0xd76aa478; 0xe8c7b756; 0x242070db; 0xc1bdceee;
    0xf57c0faf; 0x4787c62a; 0xa8304613; 0xfd469501;
    0x698098d8; 0x8b44f7af; 0xffff5bb1; 0x895cd7be;
    0x6b901122; 0xfd987193; 0xa679438e; 0x49b40821;
    0xf61e2562; 0xc040b340; 0x265e5a51; 0xe9b6c7aa;
    0xd62f105d; 0x02441453; 0xd8a1e681; 0xe7d3fbc8;
    0x21e1cde6; 0xc33707d6; 0xf4d50d87; 0x455a14ed;
    0xa9e3e905; 0xfcefa3f8; 0x676f02d9; 0x8d2a4c8a;
    0xfffa3942; 0x8771f681; 0x6d9d6122; 0xfde5380c;
    0xa4beea44; 0x4bdecfa9; 0xf6bb4b60; 0xbebfbc70;
    0x289b7ec6; 0xeaa127fa; 0xd4ef3085; 0x04881d05;
    0xd9d4d039; 0xe6db99e5; 0x1fa27cf8; 0xc4ac5665;
    0xf4292244; 0x432aff97; 0xab9423a7; 0xfc93a039;
    0x655b59c3; 0x8f0ccc92; 0xffeff47d; 0x85845dd1;
    0x6fa87e4f; 0xfe2ce6e0; 0xa3014314; 0x4e0811a1;
    0xf7537e82; 0xbd3af235; 0x2ad7d2bb; 0xeb86d391 ].

Definition S : list Z :=
  [ 7; 12; 17; 22; 7; 12; 17; 22; 7; 12; 17; 22; 7; 12; 17; 22;
    5;  9; 14; 20; 5;  9; 14; 20; 5;  9; 14; 20; 5;  9; 14; 20;
    4; 11; 16; 23; 4; 11; 16; 23; 4; 11; 16; 23; 4; 11; 16; 23;
    6; 10; 15; 21; 6; 10; 15; 21; 6; 10; 15; 21; 6; 10; 15; 21 ].

Definition nthZ (l : list Z) (i : Z) : Z := nth (Z.to_nat i) l 0.

Record regs := Regs { rA : Z; rB : Z; rC : Z; rD : Z }.

Definition init : regs :=
  Regs 0x67452301 0xefcdab89 0x98badcfe 0x10325476.

(** One of the 64 operations on the words [M] of a block. *)
Definition round (M : list Z) (r : regs) (i : Z) : regs :=
  let '(Regs a b c d) := r in
  let '(f, g) :=
    if i <? 16 then (Z.lor (Z.land b c) (Z.land (not32 b) d), i)
    else if i <? 32 then (Z.lor (Z.land d b) (Z.land (not32 d) c), (5 * i + 1) mod 16)
    else if i <? 48 then (Z.lxor (Z.lxor b c) d, (3 * i + 5) mod 16)
    else (Z.lxor c (Z.lor b (not32 d)), (7 * i) mod 16) in
  let f' := w32 (f + a + nthZ K i + nthZ M g) in
  Regs d (w32 (b + rotl32 f' (nthZ S i))) b c.

Fixpoint words_le (bs : list Z) : list Z :=
  match bs with
  | b0 :: b1 :: b2 :: b3 :: r =>
      (b0 + 256 * b1 + 65536 * b2 + 16777216 * b3) :: words_le r
  | _ => []
  end.

Definition block (r : regs) (bs : list Z) : regs :=
  let M := words_le bs in
  let r' := fold_left (round M) (map Z.of_nat (seq 0 64)) r in
  Regs (w32 (rA r + rA r')) (w32 (rB r + rB r'))
       (w32 (rC r + rC r')) (w32 (rD r + rD r')).

Definition le_bytes (n : nat) (x : Z) : list Z :=
  map (fun i => Z.land (Z.shiftr x (8 * Z.of_nat i)) 255) (seq 0 n).

(** The message, one 1 bit, zeros up to 56 modulo 64, then the bit length
    on 64 bits. *)
Definition pad (msg : list Z) : list Z :=
  let n := Z.of_nat (length msg) in
  let zeros := Z.to_nat ((55 - n) mod 64) in
  msg ++ [128] ++ repeat 0 zeros ++ le_bytes 8 ((8 * n) mod 2 ^ 64).

Fixpoint blocks (fuel : nat) (r : regs) (bs : list Z) : regs :=
  match fuel with
  | O => r
  | Datatypes.S f =>
      match bs with
      | [] => r
      | _ => blocks f (block r (firstn 64 bs)) (skipn 64 bs)
      end
  end.

Definition digest (msg : list Z) : list Z :=
  let p := pad msg in
  let r := blocks (length p) init p in
  le_bytes 4 (rA r) ++ le_bytes 4 (rB r) ++ le_bytes 4 (rC r) ++ le_bytes 4 (rD r).

Definition hex_digit (d : Z) : ascii :=
  if d <? 10 then Py.chr (48 + d) else Py.chr (87 + d).

Fixpoint hex (bs : list Z) : string :=
  match bs with
  | [] => EmptyString
  | b :: r => String (hex_digit (b / 16)) (String (hex_digit (b mod 16)) (hex r))
  end.

(** [hashlib.md5(data).hexdigest()]: 32 lower-case hexadecimal digits. *)
Definition hexdigest (data : string) : string := hex (digest (Py.bytes_of data)).

End MD5.


(** ** The strict UTF-8 decoder of [bytes.decode("utf-8")] *)

Module Utf8.

Local Open Scope Z_scope.

Definition within (lo hi b : Z) : bool := (lo <=? b) && (b <=? hi).
Definition cont (b : Z) : bool := within 0x80 0xbf b.

(** Well-formed sequences only: no overlong form, no surrogate, nothing
    above U+10FFFF. *)
Fixpoint valid_bytes (bs : list Z) : bool :=
  match bs with
  | [] => true
  | b :: r =>
      if b <? 0x80 then valid_bytes r
      else if within 0xc2 0xdf b then
        match r with
        | c1 :: r1 => cont c1 && valid_bytes r1
        | _ => false
        end
      else if within 0xe0 0xef b then
        match r with
        | c1 :: c2 :: r2 =>
            (if b =? 0xe0 then within 0xa0 0xbf c1
             else if b =? 0xed then within 0x80 0x9f c1
             else cont c1)
            && cont c2 && valid_bytes r2
        | _ => false
        end
      else if within 0xf0 0xf4 b then
        match r with
        | c1 :: c2 :: c3 :: r3 =>
            (if b =? 0xf0 then within 0x90 0xbf c1
             else if b =? 0xf4 then within 0x80 0x8f c1
             else cont c1)
            && cont c2 && cont c3 && valid_bytes r3
        | _ => false
        end
      else false
  end.

Definition valid (s : string) : bool := valid_bytes (Py.bytes_of s).

End Utf8.

(** ** Documents of the store *)

Record datetime := Datetime {
  year : Z; month : Z; day : Z; hour : Z; minute : Z; second : Z;
  microsecond : Z
}.

(** [t.strftime('%m-%d-%Y-%H-%M-%S')] *)
Definition strftime_mdYHMS (t : datetime) : string :=
  Py.pad2 (month t) ++ "-" ++ Py.pad2 (day t) ++ "-" ++ Py.str_int (year t)
  ++ "-" ++ Py.pad2 (hour t) ++ "-" ++ Py.pad2 (minute t) ++ "-"
  ++ Py.pad2 (second t).

(** BSON values.  A double is carried as its 64-bit IEEE 754 pattern: the
    script moves doubles around and never computes with them. *)
Inductive bson :=
| BDouble (bits : Z)
| BString (s : string)
| BInt (n : Z)
| BBool (b : bool)
| BNull
| BDate (t : datetime)
| BDoc (fields : list (string * bson))
| BArray (items : list bson).

Abbreviation document := (list (string * bson)).

(** Python literals out of which the script builds its pipeline. *)
Inductive pyval :=
| PStr (s : string)
| PList (items : list pyval)
| PDict (entries : list (string * pyval)).

Module Mongo.

Fixpoint lookup_field {A} (k : string) (d : list (string * A)) : option A :=
  match d with
  | [] => None
  | (k', v) :: r => if String.eqb k k' then Some v else lookup_field k r
  end.

(** Assignment to a field: in place when the field exists, appended
    otherwise. *)
Fixpoint set_field {A} (k : string) (v : A) (d : list (string * A))
  : list (string * A) :=
  match d with
  | [] => [(k, v)]
  | (k', v') :: r =>
      if String.eqb k k' then (k, v) :: r else (k', v') :: set_field k v r
  end.

Definition delete_field {A} (k : string) (d : list (string * A))
  : list (string * A) :=
  filter (fun kv => negb (String.eqb k (fst kv))) d.

(** The alias [$type] compares against. *)
Definition type_name (v : bson) : string :=
  match v with
  | BDouble _ => "double"
  | BString _ => "string"
  | BInt n => if ((- 2 ^ 31 <=? n) && (n <? 2 ^ 31))%Z then "int" else "long"
  | BBool _ => "bool"
  | BNull => "null"
  | BDate _ => "date"
  | BDoc _ => "object"
  | BArray _ => "array"
  end.

(** A type alias against the type of a value; [number] stands for every
    numeric type. *)
Definition alias_matches (t : string) (v : bson) : bool :=
  String.eqb (type_name v) t
  || String.eqb t "number"
     && match v with BDouble _ | BInt _ => true | _ => false end.

(** [{field: {"$type": t}}]: the field holds a value of type [t], or an
    array with such an element. *)
Definition has_type (t : string) (v : bson) : bool :=
  alias_matches t v
  || match v with
     | BArray items => existsb (alias_matches t) items
     | _ => false
     end.

(** One condition of a [$match] document; [None] outside the fragment
    modelled here (only the [$type] operator is). *)
Definition match_cond (cond : pyval) (v : option bson) : option bool :=
  match cond with
  | PDict [(op, PStr t)] =>
      if String.eqb op "$type"
      then Some (match v with Some x => has_type t x | None => false end)
      else None
  | _ => None
  end.

Fixpoint match_conds (conds : list (string * pyval)) (d : document)
  : option bool :=
  match conds with
  | [] => Some true
  | (field, cond) :: r =>
      match match_cond cond (lookup_field field d), match_conds r d with
      | Some b, Some b' => Some (b && b')
      | _, _ => None
      end
  end.

(** An aggregation expression on the input document [d]: a string that
    starts with a dollar sign is a field path, any other string a
    literal; a missing field reads as null inside an array and is left
    out of an object. *)
Fixpoint eval_expr (d : document) (e : pyval) : option bson :=
  match e with
  | PStr s =>
      match s with
      | String "$" path => lookup_field path d
      | _ => Some (BString s)
      end
  | PList es =>
      Some (BArray (map (fun x => default BNull (eval_expr d x)) es))
  | PDict kvs =>
      Some (BDoc ((fix fields (kvs : list (string * pyval)) : document :=
                     match kvs with
                     | [] => []
                     | (k, v) :: r =>
                         match eval_expr d v with
                         | Some x => (k, x) :: fields r
                         | None => fields r
                         end
                     end) kvs))
  end.

(** A specification of [$addFields] applied at a field whose present
    value is [old]: a nested dictionary assigns inside the embedded
    document, anything else is an expression over the input document
    [d]; a missing result removes the field. *)
Fixpoint apply_spec (d : document) (old : option bson) (spec : pyval)
  : option bson :=
  match spec with
  | PDict kvs =>
      let base := match old with Some (BDoc f) => f | _ => [] end in
      Some (BDoc ((fix assign (kvs : list (string * pyval)) (cur : document)
                     : document :=
                     match kvs with
                     | [] => cur
                     | (k, v) :: r =>
                         assign r
                           match apply_spec d (lookup_field k cur) v with
                           | Some x => set_field k x cur
                           | None => delete_field k cur
                           end
                     end) kvs base))
  | _ => eval_expr d spec
  end.

Definition add_fields (spec : pyval) (d : document) : option document :=
  match spec with
  | PDict _ =>
      match apply_spec d (Some (BDoc d)) spec with
      | Some (BDoc d') => Some d'
      | _ => None
      end
  | _ => None
  end.

Fixpoint filter_docs (conds : list (string * pyval)) (docs : list document)
  : option (list document) :=
  match docs with
  | [] => Some []
  | d :: r =>
      match match_conds conds d, filter_docs conds r with
      | Some b, Some r' => Some (if b then d :: r' else r')
      | _, _ => None
      end
  end.

Fixpoint map_docs (f : document -> option document) (docs : list document)
  : option (list document) :=
  match docs with
  | [] => Some []
  | d :: r =>
      match f d, map_docs f r with
      | Some d', Some r' => Some (d' :: r')
      | _, _ => None
      end
  end.

(** What a pipeline does once every stage is read. *)
Inductive outcome :=
| Cursor (docs : list document)
| Out (target : string) (docs : list document)
| OperationFailure.

(** The stages [$match], [$addFields] and a final [$out]. *)
Fixpoint run_pipeline (stages : list pyval) (docs : list document) : outcome :=
  match stages with
  | [] => Cursor docs
  | PDict [(op, arg)] :: rest =>
      if String.eqb op "$match" then
        match arg with
        | PDict conds =>
            match filter_docs conds docs with
            | Some docs' => run_pipeline rest docs'
            | None => OperationFailure
            end
        | _ => OperationFailure
        end
      else if String.eqb op "$addFields" then
        match map_docs (add_fields arg) docs with
        | Some docs' => run_pipeline rest docs'
        | None => OperationFailure
        end
      else if String.eqb op "$out" then
        match arg, rest with
        | PStr target, [] => Out target docs
        | _, _ => OperationFailure
        end
      else OperationFailure
  | _ => OperationFailure
  end.

End Mongo.

(** ** The world the script runs in *)

(** What [requests.get] comes back with: no connection, or a final
    response (redirects already followed) whose body arrives in chunks. *)
Inductive http_result :=
| ConnectionFailed
| Response (status : Z) (chunks : list string).

(** History of the calls that leave the process or that the properties
    below speak about; it is only ever appended to. *)
Inductive call :=
| CallGet (url : string)
| CallNow
| CallMd5 (path : string)
| CallInsert (collection : string) (doc : document)
| CallAggregate (collection : string)
| CallExtract (path : string).

(** The working directory is flat: a path is a file name, and directories
    are not modelled.  [mongo] is the server behind [--mongodb], keyed by
    database and collection. *)
Record World := mkWorld {
  fs : gmap string string;
  mongo : gmap (string * string) (list document);
  stdout : string;
  calls : list call
}.

(** The outside: every answer may depend on the history so far.  [unzip]
    is the decoder of [zipfile.ZipFile]: the members of an archive in
    directory order, or nothing when the bytes are no zip file. *)
Record Env := mkEnv {
  http_get : list call -> string -> http_result;
  utcnow : list call -> datetime;
  unzip : string -> option (list (string * string))
}.

Inductive exn :=
| HTTPError (status : Z)
| ConnectionError
| FileNotFoundError (path : string)
| UnboundLocalError (name : string)
| ValueError
| UnicodeDecodeError
| BadZipFile
| OperationFailure.

(** A computation ends normally, with an uncaught exception, or in
    [sys.exit]; the world it leaves behind is kept in every case. *)
Inductive Result (A : Type) :=
| Ok (a : A) (w : World)
| Raise (e : exn) (w : World)
| Exit (code : Z) (w : World).
Arguments Ok {A} a w.
Arguments Raise {A} e w.
Arguments Exit {A} code w.

Definition M (A : Type) : Type := World -> Result A.

Definition final {A} (r : Result A) : World :=
  match r with Ok _ w | Raise _ w | Exit _ w => w end.

(** Exit status of the interpreter: 0 at the end of the script, the
    argument of [sys.exit], 1 after an uncaught exception. *)
Definition exit_status {A} (r : Result A) : Z :=
  match r with Ok _ _ => 0 | Raise _ _ => 1 | Exit c _ => c end.

Definition ret {A} (a : A) : M A := fun w => Ok a w.

Definition bind {A B} (m : M A) (k : A -> M B) : M B := fun w =>
  match m w with
  | Ok a w' => k a w'
  | Raise e w' => Raise e w'
  | Exit c w' => Exit c w'
  end.

#[export] Instance M_ret : MRet M := @ret.
#[export] Instance M_bind : MBind M := fun A B k m => bind m k.

Definition raise {A} (e : exn) : M A := fun w => Raise e w.
Definition sys_exit {A} (code : Z) : M A := fun w => Exit code w.

Fixpoint for_each {A} (body : A -> M unit) (l : list A) : M unit :=
  match l with
  | [] => ret tt
  | x :: r => body x;; for_each body r
  end.

Definition log (c : call) (w : World) : World :=
  mkWorld (fs w) (mongo w) (stdout w) (calls w ++ [c])%list.

(** [print(s, end="")] and [print(s)] *)
Definition write_stdout (s : string) : M unit := fun w =>
  Ok tt (mkWorld (fs w) (mongo w) (stdout w ++ s) (calls w)).
Definition print (s : string) : M unit := write_stdout (s ++ Py.nl).

(** [os.path.exists] and [os.path.isfile] agree in a flat directory. *)
Definition path_exists (p : string) (w : World) : bool :=
  bool_decide (is_Some (fs w !! p)).

(** [open(name, 'w')] and [open(name, 'wb')]: the file is created or
    emptied; the empty name is no file. *)
Definition open_write (name : string) : M unit := fun w =>
  if String.eqb name "" then Raise (FileNotFoundError name) w
  else Ok tt (mkWorld (<[name := ""]> (fs w)) (mongo w) (stdout w) (calls w)).

(** [f.write(data)] on a file opened by [open_write]. *)
Definition file_append (name data : string) : M unit := fun w =>
  Ok tt (mkWorld (<[name := default "" (fs w !! name) ++ data]> (fs w))
                 (mongo w) (stdout w) (calls w)).

(** [open(name, 'r').read()] *)
Definition read_file (name : string) : M string := fun w =>
  match fs w !! name with
  | Some data => Ok data w
  | None => Raise (FileNotFoundError name) w
  end.

Fixpoint enumerate {A} (start : Z) (l : list A) : list (Z * A) :=
  match l with
  | [] => []
  | x :: r => (start, x) :: enumerate (start + 1) r
  end.

(** ** The functions of the module *)

(** [compute_md5(file)] *)
Definition compute_md5 (file : string) : M string := fun w =>
  (buf ← read_file file;
   ret (MD5.hexdigest buf)) (log (CallMd5 file) w).

(** [local_path(url)]: [url.split('/')[-1]] *)
Definition local_path (url : string) : string :=
  List.last (Py.split_on "/" url) "".

Record DownloadRecord := mkRecord {
  ts : datetime; remote : string; local : string; size : Z; md5 : string
}.

Definition record_doc (r : DownloadRecord) : document :=
  [("ts", BDate (ts r)); ("remote", BString (remote r));
   ("local", BString (local r)); ("size", BInt (size r));
   ("md5", BString (md5 r))].

Inductive ziplist_choice := master_list | incremental_list.

Definition ziplist_name (z : ziplist_choice) : string :=
  match z with master_list => "master" | incremental_list => "incremental" end.

(** The namespace [argparse] returns. *)
Record Args := mkArgs {
  arg_mongodb : string;
  arg_ziplist : ziplist_choice;
  arg_master : string;
  arg_incremental : string;
  arg_database : string;
  arg_collection : string;
  arg_local : option string;
  arg_overwrite : bool;
  arg_download : bool;
  arg_mapgeo : bool
}.

Definition default_args : Args :=
  mkArgs "mongodb://localhost:27017" incremental_list
         "http://data.gdeltproject.org/gdeltv2/masterfilelist.txt"
         "http://data.gdeltproject.org/gdeltv2/lastupdate.txt"
         "GDELT" "events" None false false false.

(** Where a loop body ends: at its last statement or in [continue]. *)
Inductive flow (A : Type) :=
| Proceed (a : A)
| Continue.
Arguments Proceed {A} a.
Arguments Continue {A}.

Definition type_double : pyval := PDict [("$type", PStr "double")].

Definition matcher : pyval :=
  PDict [("$match",
          PDict [("ActionGeo_Lat", type_double);
                 ("ActionGeo_Lon", type_double);
                 ("Actor1Geo_Lat", type_double);
                 ("Actor1Geo_Lon", type_double);
                 ("Actor2Geo_lat", type_double);
                 ("Actor2Geo_Lon", type_double)])].

Definition point (lon lat : string) : pyval :=
  PDict [("type", PStr "Point"); ("coordinates", PList [PStr lon; PStr lat])].

Definition adder : pyval :=
  PDict [("$addFields",
          PDict [("Actor1Geo", point "$Actor1Geo_Long" "$Actor1Geo_Lat");
                 ("Actor2Geo", point "$Actor2Geo_Long" "$Actor2Geo_Lat");
                 ("ActionGeo", point "$ActionGeo_Long" "$ActionGeo_Lat")])].

Definition mapgeo_pipeline : list pyval :=
  [matcher; adder; PDict [("$out", PStr "events_geo")]].

Section Script.

Variable env : Env.

(** [requests.get(url, ...)] *)
Definition requests_get (url : string) : M (Z * list string) := fun w =>
  let w' := log (CallGet url) w in
  match http_get env (calls w) url with
  | ConnectionFailed => Raise ConnectionError w'
  | Response status chunks => Ok (status, chunks) w'
  end.

(** [r.raise_for_status()]: client and server errors raise. *)
Definition raise_for_status (status : Z) : M unit :=
  if ((400 <=? status) && (status <? 600))%Z then raise (HTTPError status)
  else ret tt.

Definition datetime_utcnow : M datetime := fun w =>
  Ok (utcnow env (calls w)) (log CallNow w).

(** [download_file(url)] *)
Definition download_file (url : string) : M string :=
  let local_filename := local_path url in
  r ← requests_get url;
  raise_for_status (fst r);;
  open_write local_filename;;
  let chunks := enumerate 1 (snd r) in
  for_each (fun ic : Z * string =>
              let (i, chunk) := ic in
              if String.eqb chunk "" then ret tt
              else
                write_stdout ".";;
                (if (i mod 80 =? 0)%Z then print "" else ret tt);;
                file_append local_filename chunk) chunks;;
  match List.last (map (fun ic => Some (fst ic)) chunks) None with
  | None => raise (UnboundLocalError "i")
  | Some i => if (i mod 80 =? 0)%Z then ret tt else print ""
  end;;
  ret local_filename.

(** [zipfile.ZipFile(filepath)] *)
Definition zipfile_ZipFile (filepath : string) : M (list (string * string)) :=
  data ← read_file filepath;
  match unzip env data with
  | Some members => ret members
  | None => raise BadZipFile
  end.

(** [zfile.open(name)]: of several members with one name the last. *)
Definition zip_member (zfile : list (string * string)) (name : string) : string :=
  default "" (Mongo.lookup_field name (rev zfile)).

(** [extract_zip_file(filepath)] *)
Definition extract_zip_file (filepath : string) : M (list string) := fun w =>
  (zfile ← zipfile_ZipFile filepath;
   for_each (fun finfo =>
               let input := zip_member zfile finfo in
               open_write finfo;;
               for_each (fun i =>
                           if Utf8.valid i then file_append finfo i
                           else raise UnicodeDecodeError)
                        (Py.byte_lines input))
            (map fst zfile);;
   ret (map fst zfile)) (log (CallExtract filepath) w).

(** [files_collection.insert_one(doc)]; the [_id] the driver adds is
    left out. *)
Definition insert_one (database collection : string) (doc : document) : M unit :=
  fun w =>
    Ok tt (mkWorld (fs w)
                   (<[(database, collection) :=
                        (default [] (mongo w !! (database, collection))
                         ++ [doc])%list]>
                      (mongo w))
                   (stdout w) (calls w ++ [CallInsert collection doc])%list).

(** [events__collection.aggregate(pipeline)] *)
Definition aggregate (database collection : string) (pipeline : list pyval)
  : M unit := fun w =>
  let docs := default [] (mongo w !! (database, collection)) in
  let w' := log (CallAggregate collection) w in
  match Mongo.run_pipeline pipeline docs with
  | Mongo.Cursor _ => Ok tt w'
  | Mongo.Out target docs' =>
      Ok tt (mkWorld (fs w') (<[(database, target) := docs']> (mongo w'))
                     (stdout w') (calls w'))
  | Mongo.OperationFailure => Raise OperationFailure w'
  end.

Variable args : Args.

(** [size, md5, zip = l.split()] with [size = int(size)] *)
Definition parse_line (l : string) : M (Z * string * string) :=
  match Py.split_ws l with
  | [size; md5; zip] =>
      match Py.int size with
      | Some n => ret (n, md5, zip)
      | None => raise ValueError
      end
  | _ => raise ValueError
  end.

(** The [if] of the loop body that settles [local_zip_file]: the file at
    hand is taken as it is, otherwise the archive is downloaded. *)
Definition fetch_step (size : Z) (md5 zip : string) : M (bool * string) := fun w =>
  if path_exists (local_path zip) w && negb (arg_overwrite args)
  then (print ("File '" ++ local_path zip ++ "'exists locally");;
        ret (false, local_path zip)) w
  else (print ("Downloading:'" ++ zip ++ "'");;
        print ("size:" ++ Py.str_int size);;
        print ("md5:" ++ md5);;
        local_zip_file ← download_file zip;
        print ("created: '" ++ local_zip_file ++ "'");;
        ret (true, local_zip_file)) w.

(** The checksum test that follows a download. *)
Definition verify_step (size : Z) (md5 zip local_zip_file : string)
  : M (flow string) :=
  computed_md5 ← compute_md5 local_zip_file;
  if String.eqb computed_md5 md5
  then
    now ← datetime_utcnow;
    insert_one (arg_database args) "files"
               (record_doc (mkRecord now zip local_zip_file size md5));;
    ret (Proceed local_zip_file)
  else
    print ("'" ++ md5 ++ "' checksum for doesn't match computed checksum: "
           ++ computed_md5 ++ " for " ++ local_zip_file);;
    ret Continue.

(** The tail of the loop body. *)
Definition unzip_step (l local_zip_file : string) : M unit :=
  print ("Unzipping: '" ++ local_zip_file ++ "'");;
  local_csv_files ← extract_zip_file local_zip_file;
  for_each (fun _ => print l) local_csv_files.

(** One manifest entry, once the line is parsed. *)
Definition process_entry (l : string) (size : Z) (md5 zip : string) : M unit :=
  fetched ← fetch_step size md5 zip;
  verdict ← (if fst fetched : bool
             then verify_step size md5 zip (snd fetched)
             else ret (Proceed (snd fetched)));
  match verdict with
  | Proceed local_zip_file => unzip_step l local_zip_file
  | Continue => ret tt
  end.

(** The body of [for l in file_list]. *)
Definition process_line (l : string) : M unit :=
  e ← parse_line l;
  let '(size, md5, zip) := e in
  process_entry l size md5 zip.

(** [if args.download: ...] *)
Definition download_loop (filename : string) : M unit :=
  file_list ← read_file filename;
  for_each process_line (Py.text_lines file_list).

(** [if args.mapgeo: ...] *)
Definition mapgeo : M unit :=
  print "Mapping lat/lon to GeoJSON";;
  aggregate (arg_database args) (arg_collection args) mapgeo_pipeline;;
  sys_exit 0.

(** The [else] of [if args.local]: the remote list is fetched and
    saved under a name made of its kind and the time. *)
Definition fetch_manifest : M string :=
  let url := match arg_ziplist args with
             | master_list => arg_master args
             | incremental_list => arg_incremental args
             end in
  match arg_ziplist args with
  | master_list => print ("Getting incremental file from '" ++ url ++ "'")
  | incremental_list => print ("Getting master file from '" ++ url ++ "'")
  end;;
  r ← requests_get url;
  now ← datetime_utcnow;
  let filename := "gdelt_" ++ ziplist_name (arg_ziplist args) ++ "-file-"
                  ++ strftime_mdYHMS now ++ ".txt" in
  print ("Creating local master file: '" ++ filename ++ "'");;
  open_write filename;;
  let content := String.concat "" (snd r) in
  if Utf8.valid content then file_append filename content;; ret filename
  else raise UnicodeDecodeError.

(** [if args.local:] holds for a path other than the empty string. *)
Definition local_given : option string :=
  match arg_local args with
  | Some (String c r) => Some (String c r)
  | _ => None
  end.

(** The manifest to read: [--local] when it is given and is a file, a
    fresh copy of the remote list when it is not given. *)
Definition resolve_manifest : M string := fun w =>
  match local_given with
  | Some path =>
      if path_exists path w then ret path w
      else (print ("'" ++ path ++ "' does not exist");; sys_exit 1) w
  | None => fetch_manifest w
  end.

(** The [__main__] block. *)
Definition main : M unit :=
  if arg_mapgeo args then mapgeo
  else
    filename ← resolve_manifest;
    if arg_download args then download_loop filename else ret tt.

End Script.

(** ** Sample data and a sample outside world *)

Module Sample.

Definition url : string := "http://example.org/gdelt_20240101.zip".
Definition checksum : string := "5d41402abc4b2a76b9719d911017c592".
Definition line : string :=
  "1024 5d41402abc4b2a76b9719d911017c592 http://example.org/gdelt_20240101.zip" ++ Py.nl.

Definition broken_url : string := "http://example.org/broken.zip".
Definition broken_line : string :=
  "1024 5d41402abc4b2a76b9719d911017c592 http://example.org/broken.zip" ++ Py.nl.

Definition latin1_url : string := "http://example.org/latin1.zip".
Definition latin1_zip : string := "latin1 archive".

Definition now : datetime := Datetime 2024 1 2 3 4 5 0.

(** The decoder on the three archives of the examples: the bytes
    [hello] and [stale] hold one CSV file each, [latin1 archive] holds
    a file whose second line is not UTF-8. *)
Definition unzip (data : string) : option (list (string * string)) :=
  if String.eqb data "hello"
  then Some [("20240101.export.CSV", "1 USA" ++ Py.nl ++ "2 FRA" ++ Py.nl)]
  else if String.eqb data "stale"
  then Some [("old.CSV", "0 old" ++ Py.nl)]
  else if String.eqb data latin1_zip
  then Some [("latin1.CSV", "ok" ++ Py.nl ++ String (Py.chr 233) Py.nl)]
  else None.

Definition http (history : list call) (u : string) : http_result :=
  if String.eqb u url then Response 200 ["hel"; ""; "lo"]
  else if String.eqb u latin1_url then Response 200 [latin1_zip]
  else if String.eqb u broken_url then Response 200 ["hellp"]
  else if String.eqb u (arg_incremental default_args)
  then Response 404 ["Not Found"]
  else ConnectionFailed.

Definition env : Env := mkEnv http (fun _ => now) unzip.

Definition empty_world : World := mkWorld ∅ ∅ "" [].

(** A directory that already holds an archive of that name, with other
    bytes than the manifest announces. *)
Definition stale_world : World :=
  mkWorld {[ "gdelt_20240101.zip" := "stale" ]} ∅ "" [].






(** A store with two events: one with the six fields the filter names,
    one without [Actor2Geo_lat]. *)
Definition event_six : document :=
  [("ActionGeo_Lat", BDouble 1); ("ActionGeo_Lon", BDouble 2);
   ("Actor1Geo_Lat", BDouble 3); ("Actor1Geo_Lon", BDouble 4);
   ("Actor2Geo_lat", BDouble 5); ("Actor2Geo_Lon", BDouble 6)].

Definition event_five : document :=
  [("ActionGeo_Lat", BDouble 1); ("ActionGeo_Lon", BDouble 2);
   ("Actor1Geo_Lat", BDouble 3); ("Actor1Geo_Lon", BDouble 4);
   ("Actor2Geo_Lon", BDouble 6)].


End Sample.




(** A file name: a string without a slash. *)
Fixpoint no_slash (s : string) : bool :=
  match s with
  | EmptyString => true
  | String c r => negb (Ascii.eqb c "/") && no_slash r
  end.

(** The six fields the filter of [--mapgeo] names. *)
Definition geo_fields : list string :=
  ["ActionGeo_Lat"; "ActionGeo_Lon"; "Actor1Geo_Lat"; "Actor1Geo_Lon";
   "Actor2Geo_lat"; "Actor2Geo_Lon"].

Definition is_double_field (d : document) (field : string) : bool :=
  match Mongo.lookup_field field d with
  | Some v => Mongo.has_type "double" v
  | None => false
  end.

(** ** Definitions for the properties of the rest of the script *)








(** A line made of blanks only. *)
Fixpoint blank (s : string) : bool :=
  match s with
  | EmptyString => true
  | String c r => Py.is_space c && blank r
  end.

(** The manifest line of an entry. *)
Definition manifest_line (size : Z) (md5 zip : string) : string :=
  Py.str_int size ++ " " ++ md5 ++ " " ++ zip ++ Py.nl.

(** The point [$addFields] builds from two field paths. *)
Definition point_of (d : document) (lon lat : string) : bson :=
  BDoc [("type", BString "Point");
        ("coordinates",
         BArray [default BNull (Mongo.lookup_field lon d);
                 default BNull (Mongo.lookup_field lat d)])].

Definition with_points (d : document) : document :=
  (d ++ [("Actor1Geo", point_of d "Actor1Geo_Long" "Actor1Geo_Lat");
         ("Actor2Geo", point_of d "Actor2Geo_Long" "Actor2Geo_Lat");
         ("ActionGeo", point_of d "ActionGeo_Long" "ActionGeo_Lat")])%list.

Definition has_no_point (d : document) : Prop :=
  Mongo.lookup_field "Actor1Geo" d = None
  /\ Mongo.lookup_field "Actor2Geo" d = None
  /\ Mongo.lookup_field "ActionGeo" d = None.

Definition status_ok (status : Z) : Prop := (status < 400 \/ 600 <= status)%Z.

(** More of the outside world for the examples: an archive with an empty
    body, a URL that ends in a slash, an archive that is gone, a list that
    is served, and a list that is not text. *)
Module Cases.

Definition empty_url : string := "http://example.org/empty.zip".
Definition slash_url : string := "http://example.org/archives/".
Definition gone_url : string := "http://example.org/gone.zip".
Definition down_url : string := "http://example.org/down.zip".
Definition list_url : string := "http://example.org/list.txt".
Definition binary_url : string := "http://example.org/binary.txt".

Definition gone_line : string := manifest_line 7 Sample.checksum gone_url.

Definition http (history : list call) (u : string) : http_result :=
  if String.eqb u empty_url then Response 200 []
  else if String.eqb u slash_url then Response 200 ["index"]
  else if String.eqb u gone_url then Response 404 ["Not Found"]
  else if String.eqb u list_url then Response 200 [Sample.line]
  else if String.eqb u binary_url then Response 200 [String (Py.chr 255) ""]
  else Sample.http history u.

Definition env : Env := mkEnv http (fun _ => Sample.now) Sample.unzip.







(** A directory in which the archive of the sample line is a file that is
    no zip archive. *)
Definition garbage_world : World :=
  mkWorld {[ "gdelt_20240101.zip" := "garbage" ]} ∅ "" [].

End Cases.

(** What a computation never disturbs. *)
Definition stable {A} (P : World -> Prop) (m : M A) : Prop :=
  forall w, P w -> P (final (m w)).

Definition mongo_is (mg : gmap (string * string) (list document)) (w : World) : Prop :=
  mongo w = mg.
Definition calls_are (cs : list call) (w : World) : Prop := calls w = cs.
Definition has_file (name : string) (w : World) : Prop := is_Some (fs w !! name).

(** The record the loop inserts for a verified download. *)
Definition inserted (env : Env) (args : Args) (size : Z) (md5 zip name : string)
  (w1 : World) : World :=
  let doc := record_doc (mkRecord (utcnow env (calls w1 ++ [CallMd5 name])%list)
                                  zip name size md5) in
  mkWorld (fs w1)
          (<[(arg_database args, "files") :=
               (default [] (mongo w1 !! (arg_database args, "files")) ++ [doc])%list]>
             (mongo w1))
          (stdout w1)
          (calls w1 ++ [CallMd5 name; CallNow; CallInsert "files" doc])%list.

(** The world after the warning about a mismatch. *)
Definition warned (md5 computed name : string) (w1 : World) : World :=
  mkWorld (fs w1) (mongo w1)
          (stdout w1
           ++ ("'" ++ md5 ++ "' checksum for doesn't match computed checksum: "
               ++ computed ++ " for " ++ name) ++ Py.nl)
          (calls w1 ++ [CallMd5 name])%list.

Example md5_hello : MD5.hexdigest "hello" = "5d41402abc4b2a76b9719d911017c592".
Proof. vm_compute. reflexivity. Qed.

Example md5_empty : MD5.hexdigest "" = "d41d8cd98f00b204e9800998ecf8427e".
Proof. vm_compute. reflexivity. Qed.

Example md5_two_blocks :
  MD5.hexdigest "aaaaaaaaaaaaaaaaaaaaaaaaaaaaaaaaaaaaaaaaaaaaaaaaaaaaaaaa"
  = "3b0c8ac703f828b04c6c197006d17218".
Proof. vm_compute. reflexivity. Qed.

Example split_examples :
  Py.split_on "/" "http://example.org/a/b.zip" = ["http:"; ""; "example.org"; "a"; "b.zip"]
  /\ Py.split_ws "  12 ab	cd
" = ["12"; "ab"; "cd"]
  /\ Py.int "1_024" = Some 1024%Z /\ Py.int "-7" = Some (-7)%Z /\ Py.int "1__0" = None
  /\ Py.int "" = None /\ Py.int "12_" = None
  /\ Py.str_int 1024 = "1024" /\ Py.str_int 0 = "0" /\ Py.str_int (-35) = "-35"
  /\ Py.pad2 7 = "07".
Proof. vm_compute. repeat split; reflexivity. Qed.

(** ** File names *)

Lemma split_on_not_nil sep s : Py.split_on sep s <> [].
Proof.
  destruct s as [|c r]; simpl; [discriminate|].
  destruct (Ascii.eqb c sep); [discriminate|].
  destruct (Py.split_on sep r); discriminate.
Qed.

Lemma split_on_app sep p n :
  Py.split_on sep (p ++ String sep n)
  = (Py.split_on sep p ++ Py.split_on sep n)%list.
Proof.
  induction p as [|c p IH]; simpl.
  - rewrite Ascii.eqb_refl. reflexivity.
  - destruct (Ascii.eqb c sep); rewrite IH; [reflexivity|].
    pose proof (split_on_not_nil sep p) as Hp.
    destruct (Py.split_on sep p); [congruence|reflexivity].
Qed.

Lemma split_on_no_slash n : no_slash n = true -> Py.split_on "/" n = [n].
Proof.
  induction n as [|c n IH]; simpl; [reflexivity|].
  intros H. apply andb_true_iff in H as [Hc Hn].
  apply negb_true_iff in Hc. rewrite Hc, (IH Hn). reflexivity.
Qed.

(** [local_path] is the last segment of the URL: what follows the last
    slash. *)
Lemma local_path_last_segment prefix name :
  no_slash name = true -> local_path (prefix ++ String "/" name) = name.
Proof.
  intros H. unfold local_path.
  rewrite split_on_app, (split_on_no_slash _ H). apply List.last_last.
Qed.

(** ** Frame rules *)

Section Frames.

Context (P : World -> Prop).

Lemma stable_ret {A} (a : A) : stable P (ret a).
Proof. intros w H. exact H. Qed.

Lemma stable_raise {A} (e : exn) : stable P (@raise A e).
Proof. intros w H. exact H. Qed.

Lemma stable_exit {A} (c : Z) : stable P (@sys_exit A c).
Proof. intros w H. exact H. Qed.

Lemma stable_bind {A B} (m : M A) (k : A -> M B) :
  stable P m -> (forall a, stable P (k a)) -> stable P (m ≫= k).
Proof.
  intros Hm Hk w H. unfold mbind, M_bind, bind.
  specialize (Hm w H). destruct (m w) as [a w'|e w'|c w']; simpl in *; auto.
  apply Hk, Hm.
Qed.

Lemma stable_for_each {A} (body : A -> M unit) (l : list A) :
  (forall x, stable P (body x)) -> stable P (for_each body l).
Proof.
  intros Hb. induction l as [|x r IH]; simpl.
  - apply stable_ret.
  - apply stable_bind; auto.
Qed.

End Frames.

Ltac frame_step :=
  first
    [ apply stable_bind
    | apply stable_for_each
    | apply stable_ret
    | apply stable_raise
    | apply stable_exit
    | match goal with
      | |- stable _ (match ?x with _ => _ end) => destruct x
      end ].

Create HintDb frames.

Ltac frame := repeat (intros; first [ solve [auto with frames] | frame_step ]).

Ltac prim := intros w H; unfold final; simpl; try exact H.

Section Primitives.

Variable env : Env.

(** Standard output, the directory and the network leave the store
    alone. *)
Lemma mongo_write_stdout mg s : stable (mongo_is mg) (write_stdout s).
Proof. prim. Qed.

Lemma mongo_print mg s : stable (mongo_is mg) (print s).
Proof. prim. Qed.

Lemma mongo_open_write mg name : stable (mongo_is mg) (open_write name).
Proof. intros w H. unfold open_write. destruct (String.eqb name ""); exact H. Qed.

Lemma mongo_file_append mg name data : stable (mongo_is mg) (file_append name data).
Proof. prim. Qed.

Lemma mongo_read_file mg name : stable (mongo_is mg) (read_file name).
Proof. intros w H. unfold read_file. destruct (fs w !! name); exact H. Qed.

Lemma mongo_requests_get mg url : stable (mongo_is mg) (requests_get env url).
Proof.
  intros w H. unfold requests_get.
  destruct (http_get env (calls w) url); exact H.
Qed.

Lemma mongo_raise_for_status mg status : stable (mongo_is mg) (raise_for_status status).
Proof. intros w H. unfold raise_for_status. destruct (_ && _); exact H. Qed.

(** Standard output and the directory make no call. *)
Lemma calls_write_stdout cs s : stable (calls_are cs) (write_stdout s).
Proof. prim. Qed.

Lemma calls_print cs s : stable (calls_are cs) (print s).
Proof. prim. Qed.

Lemma calls_open_write cs name : stable (calls_are cs) (open_write name).
Proof. intros w H. unfold open_write. destruct (String.eqb name ""); exact H. Qed.

Lemma calls_file_append cs name data : stable (calls_are cs) (file_append name data).
Proof. prim. Qed.

Lemma calls_read_file cs name : stable (calls_are cs) (read_file name).
Proof. intros w H. unfold read_file. destruct (fs w !! name); exact H. Qed.

(** No operation of the script removes a file. *)
Lemma file_write_stdout f s : stable (has_file f) (write_stdout s).
Proof. prim. Qed.

Lemma file_print f s : stable (has_file f) (print s).
Proof. prim. Qed.

Lemma file_open_write f name : stable (has_file f) (open_write name).
Proof.
  intros w H. unfold open_write. destruct (String.eqb name ""); [exact H|].
  unfold has_file, final; simpl. rewrite lookup_insert. case_decide; eauto.
Qed.

Lemma file_file_append f name data : stable (has_file f) (file_append name data).
Proof.
  intros w H. unfold has_file, final, file_append; simpl.
  rewrite lookup_insert. case_decide; eauto.
Qed.

Lemma file_read_file f name : stable (has_file f) (read_file name).
Proof. intros w H. unfold read_file. destruct (fs w !! name); exact H. Qed.

End Primitives.

#[export] Hint Resolve mongo_write_stdout mongo_print mongo_open_write
  mongo_file_append mongo_read_file mongo_requests_get mongo_raise_for_status
  calls_write_stdout calls_print calls_open_write calls_file_append
  calls_read_file file_write_stdout file_print file_open_write
  file_file_append file_read_file : frames.

Section ScriptFrames.

Variable env : Env.
Variable args : Args.

Lemma mongo_download_file mg url : stable (mongo_is mg) (download_file env url).
Proof. unfold download_file. frame. Qed.

Lemma mongo_compute_md5 mg file : stable (mongo_is mg) (compute_md5 file).
Proof.
  intros w H. unfold compute_md5.
  assert (Hb : stable (mongo_is mg) (buf ← read_file file; ret (MD5.hexdigest buf)))
    by frame.
  apply Hb. exact H.
Qed.

Lemma mongo_extract_zip_file mg path :
  stable (mongo_is mg) (extract_zip_file env path).
Proof.
  intros w H. unfold extract_zip_file, zipfile_ZipFile.
  match goal with |- mongo_is mg (final (?body (log ?c w))) =>
    assert (Hb : stable (mongo_is mg) body) by frame
  end.
  apply Hb. exact H.
Qed.

Lemma mongo_unzip_step mg l name : stable (mongo_is mg) (unzip_step env l name).
Proof. unfold unzip_step. pose proof mongo_extract_zip_file. frame. Qed.

Lemma mongo_after_unzip_step l name w :
  mongo (final (unzip_step env l name w)) = mongo w.
Proof. apply (mongo_unzip_step (mongo w) l name w eq_refl). Qed.

Lemma mongo_fetch_step mg size md5 zip :
  stable (mongo_is mg) (fetch_step env args size md5 zip).
Proof.
  intros w H. unfold fetch_step. pose proof mongo_download_file.
  destruct (_ && _).
  - match goal with |- mongo_is mg (final (?body w)) =>
      assert (Hb : stable (mongo_is mg) body) by frame end.
    apply Hb, H.
  - match goal with |- mongo_is mg (final (?body w)) =>
      assert (Hb : stable (mongo_is mg) body) by frame end.
    apply Hb, H.
Qed.

(** Unpacking logs one call, its own, and nothing after it. *)
Lemma calls_extract_zip_file path w :
  calls (final (extract_zip_file env path w)) = (calls w ++ [CallExtract path])%list.
Proof.
  unfold extract_zip_file, zipfile_ZipFile.
  match goal with |- calls (final (?body (log ?c w))) = ?cs =>
    assert (Hb : stable (calls_are cs) body) by frame
  end.
  apply Hb. reflexivity.
Qed.


End ScriptFrames.

(** ** Running the monad *)

Lemma bind_Ok_inv {A B} (m : M A) (k : A -> M B) w b w1 :
  (m ≫= k) w = Ok b w1 -> exists a w', m w = Ok a w' /\ k a w' = Ok b w1.
Proof.
  unfold mbind, M_bind, bind. destruct (m w) as [a w'|e w'|c w']; try discriminate.
  eauto.
Qed.

Lemma bind_Ok {A B} (m : M A) (k : A -> M B) w a w' :
  m w = Ok a w' -> (m ≫= k) w = k a w'.
Proof. intros H. unfold mbind, M_bind, bind. rewrite H. reflexivity. Qed.

Lemma bind_Raise {A B} (m : M A) (k : A -> M B) w e w' :
  m w = Raise e w' -> (m ≫= k) w = Raise e w'.
Proof. intros H. unfold mbind, M_bind, bind. rewrite H. reflexivity. Qed.

Lemma bind_Exit {A B} (m : M A) (k : A -> M B) w c w' :
  m w = Exit c w' -> (m ≫= k) w = Exit c w'.
Proof. intros H. unfold mbind, M_bind, bind. rewrite H. reflexivity. Qed.

Lemma path_exists_has_file p w : path_exists p w = true <-> has_file p w.
Proof. unfold path_exists, has_file. apply bool_decide_eq_true. Qed.

Section Facts.

Variable env : Env.
Variable args : Args.

Lemma compute_md5_ok name content w :
  fs w !! name = Some content ->
  compute_md5 name w = Ok (MD5.hexdigest content) (log (CallMd5 name) w).
Proof.
  intros H. unfold compute_md5, read_file, mbind, M_bind, bind. simpl.
  rewrite H. reflexivity.
Qed.

Lemma verify_step_match size md5 zip name content w1 :
  fs w1 !! name = Some content ->
  MD5.hexdigest content = md5 ->
  verify_step env args size md5 zip name w1
  = Ok (Proceed name) (inserted env args size md5 zip name w1).
Proof.
  intros Hf Hm. unfold verify_step.
  rewrite (bind_Ok _ _ _ _ _ (compute_md5_ok _ _ _ Hf)).
  rewrite Hm, String.eqb_refl.
  unfold inserted, datetime_utcnow, insert_one, log, mbind, M_bind, bind, ret; simpl.
  rewrite <- !app_assoc. reflexivity.
Qed.

Lemma verify_step_mismatch size md5 zip name content w1 :
  fs w1 !! name = Some content ->
  MD5.hexdigest content <> md5 ->
  verify_step env args size md5 zip name w1
  = Ok Continue (warned md5 (MD5.hexdigest content) name w1).
Proof.
  intros Hf Hm. unfold verify_step.
  rewrite (bind_Ok _ _ _ _ _ (compute_md5_ok _ _ _ Hf)).
  apply String.eqb_neq in Hm. rewrite Hm. reflexivity.
Qed.

(** A download asks the network once and, when it returns, has left the
    archive in the directory under the last segment of the URL. *)
Lemma calls_download_file url w :
  calls (final (download_file env url w)) = (calls w ++ [CallGet url])%list.
Proof.
  unfold download_file.
  match goal with |- calls (final ((_ ≫= ?k) w)) = ?cs =>
    assert (Hk : forall r, stable (calls_are cs) (k r))
      by (intros r; pose proof calls_open_write; unfold raise_for_status; frame)
  end.
  unfold mbind at 1. unfold M_bind, bind, requests_get.
  destruct (http_get env (calls w) url) as [|status chunks]; [reflexivity|].
  apply Hk. reflexivity.
Qed.

Lemma download_file_ok url w name w1 :
  download_file env url w = Ok name w1 ->
  name = local_path url /\ has_file name w1.
Proof.
  unfold download_file. intros H.
  apply bind_Ok_inv in H as (r & wa & _ & H).
  apply bind_Ok_inv in H as (? & wb & _ & H).
  apply bind_Ok_inv in H as (? & wc & Ho & H).
  assert (Hc : has_file (local_path url) wc).
  { unfold open_write in Ho. destruct (String.eqb (local_path url) ""); [discriminate|].
    injection Ho as _ <-. unfold has_file; simpl. rewrite lookup_insert_eq. eauto. }
  match type of H with (?body ≫= _) wc = _ =>
    assert (Hs : stable (has_file (local_path url)) body) by frame
  end.
  apply bind_Ok_inv in H as (? & wd & Hd & H).
  specialize (Hs wc Hc). rewrite Hd in Hs. simpl in Hs.
  apply bind_Ok_inv in H as (? & we & He & H).
  injection H as <- <-. split; [reflexivity|].
  destruct (List.last _ None) as [i|]; [|discriminate].
  destruct (i mod 80 =? 0)%Z.
  - injection He as _ <-. exact Hs.
  - injection He as _ <-. exact Hs.
Qed.

(** The two ways the fetch step returns. *)
Lemma fetch_step_reuse size md5 zip w :
  path_exists (local_path zip) w = true ->
  arg_overwrite args = false ->
  fetch_step env args size md5 zip w
  = Ok (false, local_path zip)
       (mkWorld (fs w) (mongo w)
                (stdout w ++ ("File '" ++ local_path zip ++ "'exists locally") ++ Py.nl)
                (calls w)).
Proof. intros He Ho. unfold fetch_step. rewrite He, Ho. reflexivity. Qed.

Lemma fetch_step_inv size md5 zip w b name w1 :
  fetch_step env args size md5 zip w = Ok (b, name) w1 ->
  name = local_path zip /\ has_file name w1
  /\ (b = false ->
      path_exists (local_path zip) w = true /\ arg_overwrite args = false
      /\ fs w1 = fs w /\ calls w1 = calls w)
  /\ (b = true ->
      path_exists (local_path zip) w && negb (arg_overwrite args) = false
      /\ calls w1 = (calls w ++ [CallGet zip])%list).
Proof.
  unfold fetch_step. destruct (_ && _) eqn:Hc; intros H.
  - apply andb_true_iff in Hc as [He Ho]. apply negb_true_iff in Ho.
    injection H as <- <- <-. simpl. repeat split; auto; try discriminate.
    apply path_exists_has_file in He. exact He.
  - apply bind_Ok_inv in H as (? & wa & Ha & H).
    apply bind_Ok_inv in H as (? & wb & Hb & H).
    apply bind_Ok_inv in H as (? & wc & Hcc & H).
    apply bind_Ok_inv in H as (f & wd & Hd & H).
    apply bind_Ok_inv in H as (? & we & He & H).
    injection H as <- <- <-.
    injection Ha as _ <-. injection Hb as _ <-. injection Hcc as _ <-.
    injection He as _ <-.
    pose proof (calls_download_file zip
                  (mkWorld (fs w) (mongo w)
                     (((stdout w ++ ("Downloading:'" ++ zip ++ "'") ++ Py.nl)
                         ++ ("size:" ++ Py.str_int size) ++ Py.nl)
                        ++ ("md5:" ++ md5) ++ Py.nl) (calls w))) as Hcalls.
    simpl in Hd. rewrite Hd in Hcalls. simpl in Hcalls.
    apply download_file_ok in Hd as [-> Hf].
    repeat split; auto; try discriminate.
Qed.

(** The loop body, case by case. *)
Lemma process_entry_reuse l size md5 zip w name w1 :
  fetch_step env args size md5 zip w = Ok (false, name) w1 ->
  process_entry env args l size md5 zip w = unzip_step env l name w1.
Proof. intros H. unfold process_entry. rewrite (bind_Ok _ _ _ _ _ H). reflexivity. Qed.

Lemma process_entry_verified l size md5 zip w name w1 content :
  fetch_step env args size md5 zip w = Ok (true, name) w1 ->
  fs w1 !! name = Some content ->
  MD5.hexdigest content = md5 ->
  process_entry env args l size md5 zip w
  = unzip_step env l name (inserted env args size md5 zip name w1).
Proof.
  intros H Hf Hm. unfold process_entry. rewrite (bind_Ok _ _ _ _ _ H). simpl.
  rewrite (bind_Ok _ _ _ _ _ (verify_step_match _ _ _ _ _ _ Hf Hm)). reflexivity.
Qed.

Lemma process_entry_mismatch l size md5 zip w name w1 content :
  fetch_step env args size md5 zip w = Ok (true, name) w1 ->
  fs w1 !! name = Some content ->
  MD5.hexdigest content <> md5 ->
  process_entry env args l size md5 zip w
  = Ok tt (warned md5 (MD5.hexdigest content) name w1).
Proof.
  intros H Hf Hm. unfold process_entry. rewrite (bind_Ok _ _ _ _ _ H). simpl.
  rewrite (bind_Ok _ _ _ _ _ (verify_step_mismatch _ _ _ _ _ _ Hf Hm)). reflexivity.
Qed.

End Facts.

(** ** The download loop *)

(** C1, amended.  Within one pass of the download loop a record reaches the
    [files] collection only when the archive was downloaded in that pass and
    the MD5 of what was written to disk equals the checksum of the manifest;
    when the MD5 of a downloaded archive differs, the pass ends normally
    with the store as it was, the archive still on disk, and no call of the
    extractor. *)
Theorem record_only_after_verified_download env args l size md5 zip w :
  let r := process_entry env args l size md5 zip w in
  (mongo (final r) <> mongo w ->
   exists w1 content,
     fetch_step env args size md5 zip w = Ok (true, local_path zip) w1
     /\ fs w1 !! local_path zip = Some content
     /\ MD5.hexdigest content = md5
     /\ mongo (final r) = mongo (inserted env args size md5 zip (local_path zip) w1))
  /\ (forall w1 name content,
        fetch_step env args size md5 zip w = Ok (true, name) w1 ->
        fs w1 !! name = Some content ->
        MD5.hexdigest content <> md5 ->
        r = Ok tt (warned md5 (MD5.hexdigest content) name w1)
        /\ mongo (final r) = mongo w
        /\ fs (final r) !! name = Some content
        /\ calls (final r) = (calls w ++ [CallGet zip; CallMd5 name])%list).
Proof.
  intros r. subst r.
  pose proof (mongo_fetch_step env args (mongo w) size md5 zip w eq_refl) as Hmg.
  unfold mongo_is in Hmg.
  destruct (fetch_step env args size md5 zip w) as [[b name] w1|e w1|c w1] eqn:Hf;
    simpl in Hmg.
  - destruct (fetch_step_inv _ _ _ _ _ _ _ _ _ Hf) as (-> & [content Hc] & Hfalse & Htrue).
    destruct b.
    + destruct (Htrue eq_refl) as [_ Hcalls]. split.
      * intros Hne. exists w1, content.
        destruct (decide (MD5.hexdigest content = md5)) as [Heq|Hneq].
        -- rewrite (process_entry_verified _ _ _ _ _ _ _ _ _ _ Hf Hc Heq) in *.
           repeat split; auto.
           apply mongo_after_unzip_step.
        -- rewrite (process_entry_mismatch _ _ _ _ _ _ _ _ _ _ Hf Hc Hneq) in Hne.
           simpl in Hne. congruence.
      * intros w1' name' content' Hf' Hc' Hneq. injection Hf' as <- <-.
        rewrite (process_entry_mismatch _ _ _ _ _ _ _ _ _ _ Hf Hc' Hneq). simpl.
        repeat split; auto. rewrite Hcalls, <- app_assoc. reflexivity.
    + split; [|intros ? ? ? [=]].
      rewrite (process_entry_reuse _ _ _ _ _ _ _ _ _ Hf).
      intros Hne. exfalso. apply Hne. rewrite <- Hmg.
      apply mongo_after_unzip_step.
  - split; [|intros ? ? ? [=]].
    unfold process_entry. rewrite (bind_Raise _ _ _ _ _ Hf). simpl. congruence.
  - split; [|intros ? ? ? [=]].
    unfold process_entry. rewrite (bind_Exit _ _ _ _ _ Hf). simpl. congruence.
Qed.

(** C6.  When the archive just downloaded for a manifest line does not have
    the checksum of the manifest, the loop prints a warning that names both
    checksums, inserts nothing, calls no extractor, and goes on with the
    lines that remain. *)
Theorem mismatch_warns_and_continues env args l rest size md5 zip w w1 name content :
  parse_line l w = Ok (size, md5, zip) w ->
  fetch_step env args size md5 zip w = Ok (true, name) w1 ->
  fs w1 !! name = Some content ->
  MD5.hexdigest content <> md5 ->
  let w2 := warned md5 (MD5.hexdigest content) name w1 in
  for_each (process_line env args) (l :: rest) w
  = for_each (process_line env args) rest w2
  /\ stdout w2
     = stdout w1
       ++ ("'" ++ md5 ++ "' checksum for doesn't match computed checksum: "
           ++ MD5.hexdigest content ++ " for " ++ name) ++ Py.nl
  /\ mongo w2 = mongo w
  /\ calls w2 = (calls w ++ [CallGet zip; CallMd5 name])%list.
Proof.
  intros Hp Hf Hc Hneq w2. subst w2.
  destruct (fetch_step_inv _ _ _ _ _ _ _ _ _ Hf) as (_ & _ & _ & Htrue).
  destruct (Htrue eq_refl) as [_ Hcalls].
  pose proof (mongo_fetch_step env args (mongo w) size md5 zip w eq_refl) as Hmg.
  rewrite Hf in Hmg. unfold mongo_is in Hmg. simpl in Hmg.
  repeat split; simpl; auto.
  - assert (Hl : process_line env args l w
                 = Ok tt (warned md5 (MD5.hexdigest content) name w1)).
    { unfold process_line. rewrite (bind_Ok _ _ _ _ _ Hp).
      apply (process_entry_mismatch _ _ _ _ _ _ _ _ _ _ Hf Hc Hneq). }
    simpl. unfold mbind, M_bind, bind. rewrite Hl. reflexivity.
  - rewrite Hcalls, <- app_assoc. reflexivity.
Qed.

(** C7.  With [overwrite] off, the fetch step on an entry whose file name
    (the last segment of the URL) is already in the directory asks the
    network nothing and leaves the directory as it is; hence a second fetch
    after one that returned changes no file and makes no request. *)
Theorem fetch_reuses_local_file env args size md5 zip w :
  arg_overwrite args = false ->
  (path_exists (local_path zip) w = true ->
   exists w', fetch_step env args size md5 zip w = Ok (false, local_path zip) w'
              /\ fs w' = fs w /\ calls w' = calls w)
  /\ (forall b name w1,
        fetch_step env args size md5 zip w = Ok (b, name) w1 ->
        exists w2, fetch_step env args size md5 zip w1 = Ok (false, name) w2
                   /\ fs w2 = fs w1 /\ calls w2 = calls w1).
Proof.
  intros Ho. split.
  - intros He. eexists. split; [apply fetch_step_reuse; assumption|]. split; reflexivity.
  - intros b name w1 Hf.
    destruct (fetch_step_inv _ _ _ _ _ _ _ _ _ Hf) as (-> & Hfile & _).
    apply path_exists_has_file in Hfile.
    eexists. split; [apply fetch_step_reuse; assumption|]. split; reflexivity.
Qed.



(** The amended C1 on the sample world: the archive that answers with the
    bytes [hello] is recorded, the one that answers [hellp] is not. *)
Lemma record_only_after_verified_download_witness :
  let w := Sample.empty_world in
  let good := process_entry Sample.env default_args Sample.line 1024
                Sample.checksum Sample.url w in
  let bad := process_entry Sample.env default_args Sample.broken_line 1024
               Sample.checksum Sample.broken_url w in
  let w1 := final (fetch_step Sample.env default_args 1024 Sample.checksum
                     Sample.broken_url w) in
  (mongo (final good) <> mongo w
   /\ exists w1 content,
       fetch_step Sample.env default_args 1024 Sample.checksum Sample.url w
       = Ok (true, local_path Sample.url) w1
       /\ fs w1 !! local_path Sample.url = Some content
       /\ MD5.hexdigest content = Sample.checksum
       /\ mongo (final good)
          = mongo (inserted Sample.env default_args 1024 Sample.checksum
                     Sample.url (local_path Sample.url) w1))
  /\ (fs w1 !! "broken.zip" = Some "hellp"
      /\ MD5.hexdigest "hellp" <> Sample.checksum
      /\ bad = Ok tt (warned Sample.checksum (MD5.hexdigest "hellp") "broken.zip" w1)
      /\ mongo (final bad) = mongo w
      /\ fs (final bad) !! "broken.zip" = Some "hellp"
      /\ calls (final bad) = [CallGet Sample.broken_url; CallMd5 "broken.zip"]).
Proof.
  intros w good bad w1.
  assert (Hne : mongo (final good) <> mongo w).
  { intros H. apply (f_equal (fun m => m !! ("GDELT", "files"))) in H.
    vm_compute in H. discriminate H. }
  assert (Hf : fetch_step Sample.env default_args 1024 Sample.checksum
                 Sample.broken_url w = Ok (true, "broken.zip") w1)
    by (vm_compute; reflexivity).
  assert (Hc : fs w1 !! "broken.zip" = Some "hellp") by (vm_compute; reflexivity).
  assert (Hm : MD5.hexdigest "hellp" <> Sample.checksum)
    by (vm_compute; intros H; discriminate H).
  split.
  - split; [exact Hne|].
    exact (proj1 (record_only_after_verified_download Sample.env default_args
                    Sample.line 1024 Sample.checksum Sample.url w) Hne).
  - split; [exact Hc|]. split; [exact Hm|].
    exact (proj2 (record_only_after_verified_download Sample.env default_args
                    Sample.broken_line 1024 Sample.checksum Sample.broken_url w)
                 w1 "broken.zip" "hellp" Hf Hc Hm).
Defined.

(** C1 as it is written fails on an archive that is reused: the file at hand
    has another MD5 than the manifest announces, and it is unpacked all the
    same. *)
Lemma reused_archive_unpacked_despite_mismatch :
  let w := Sample.stale_world in
  let r := process_entry Sample.env default_args Sample.line 1024
             Sample.checksum Sample.url w in
  fs w !! local_path Sample.url = Some "stale"
  /\ MD5.hexdigest "stale" <> Sample.checksum
  /\ exit_status r = 0%Z
  /\ fs (final r) !! local_path Sample.url = Some "stale"
  /\ calls (final r) = [CallExtract "gdelt_20240101.zip"]
  /\ fs (final r) !! "old.CSV" = Some ("0 old" ++ Py.nl)
  /\ mongo (final r) = mongo w.
Proof.
  vm_compute. repeat split; try reflexivity. intros H. discriminate H.
Qed.

(** C6 on the sample world: the first line names an archive that arrives
    with other bytes, the second line is processed after the warning. *)
Lemma mismatch_warns_and_continues_witness :
  let w := Sample.empty_world in
  let w1 := final (fetch_step Sample.env default_args 1024 Sample.checksum
                     Sample.broken_url w) in
  let w2 := warned Sample.checksum (MD5.hexdigest "hellp") "broken.zip" w1 in
  (parse_line Sample.broken_line w = Ok (1024%Z, Sample.checksum, Sample.broken_url) w
   /\ fetch_step Sample.env default_args 1024 Sample.checksum Sample.broken_url w
      = Ok (true, "broken.zip") w1
   /\ fs w1 !! "broken.zip" = Some "hellp"
   /\ MD5.hexdigest "hellp" <> Sample.checksum)
  /\ for_each (process_line Sample.env default_args)
              [Sample.broken_line; Sample.line] w
     = for_each (process_line Sample.env default_args) [Sample.line] w2
  /\ stdout w2
     = stdout w1
       ++ ("'" ++ Sample.checksum
           ++ "' checksum for doesn't match computed checksum: "
           ++ MD5.hexdigest "hellp" ++ " for " ++ "broken.zip") ++ Py.nl
  /\ mongo w2 = mongo w
  /\ calls w2 = [CallGet Sample.broken_url; CallMd5 "broken.zip"].
Proof.
  intros w w1 w2.
  assert (Hp : parse_line Sample.broken_line w
               = Ok (1024%Z, Sample.checksum, Sample.broken_url) w)
    by (vm_compute; reflexivity).
  assert (Hf : fetch_step Sample.env default_args 1024 Sample.checksum
                 Sample.broken_url w = Ok (true, "broken.zip") w1)
    by (vm_compute; reflexivity).
  assert (Hc : fs w1 !! "broken.zip" = Some "hellp") by (vm_compute; reflexivity).
  assert (Hm : MD5.hexdigest "hellp" <> Sample.checksum)
    by (vm_compute; intros H; discriminate H).
  split; [repeat split; assumption|].
  exact (mismatch_warns_and_continues Sample.env default_args Sample.broken_line
           [Sample.line] 1024 Sample.checksum Sample.broken_url w w1
           "broken.zip" "hellp" Hp Hf Hc Hm).
Defined.

(** C7 on the sample world: the archive is in the directory before the
    first fetch, and again after a download. *)
Lemma fetch_reuses_local_file_witness :
  let w := Sample.stale_world in
  let w1 := final (fetch_step Sample.env default_args 1024 Sample.checksum
                     Sample.url Sample.empty_world) in
  (arg_overwrite default_args = false
   /\ path_exists (local_path Sample.url) w = true
   /\ fetch_step Sample.env default_args 1024 Sample.checksum Sample.url
        Sample.empty_world = Ok (true, "gdelt_20240101.zip") w1
   /\ calls w1 = [CallGet Sample.url])
  /\ (exists w', fetch_step Sample.env default_args 1024 Sample.checksum Sample.url w
                 = Ok (false, local_path Sample.url) w'
                 /\ fs w' = fs w /\ calls w' = calls w)
  /\ (exists w2, fetch_step Sample.env default_args 1024 Sample.checksum
                   Sample.url w1 = Ok (false, "gdelt_20240101.zip") w2
                 /\ fs w2 = fs w1 /\ calls w2 = calls w1).
Proof.
  intros w w1.
  assert (Ho : arg_overwrite default_args = false) by reflexivity.
  assert (He : path_exists (local_path Sample.url) w = true) by (vm_compute; reflexivity).
  assert (Hf : fetch_step Sample.env default_args 1024 Sample.checksum Sample.url
                 Sample.empty_world = Ok (true, "gdelt_20240101.zip") w1)
    by (vm_compute; reflexivity).
  assert (Hc : calls w1 = [CallGet Sample.url]) by (vm_compute; reflexivity).
  split; [repeat split; assumption|]. split.
  - exact (proj1 (fetch_reuses_local_file Sample.env default_args 1024
                    Sample.checksum Sample.url w Ho) He).
  - exact (proj2 (fetch_reuses_local_file Sample.env default_args 1024
                    Sample.checksum Sample.url Sample.empty_world Ho)
                 true "gdelt_20240101.zip" w1 Hf).
Defined.



(** ** The checksum comparison *)








(** ** HTTP errors *)

(** [download_file] checks the status before it opens the local file: on a
    client or server error it raises, and the directory is as it was. *)
Lemma download_file_raises_before_writing env url w status chunks :
  http_get env (calls w) url = Response status chunks ->
  (400 <= status < 600)%Z ->
  download_file env url w = Raise (HTTPError status) (log (CallGet url) w).
Proof.
  intros Hr Hs. unfold download_file, requests_get, raise_for_status.
  unfold mbind, M_bind, bind. rewrite Hr. simpl.
  replace ((400 <=? status) && (status <? 600))%Z with true; [reflexivity|].
  symmetry. apply andb_true_iff. split; [apply Z.leb_le|apply Z.ltb_lt]; lia.
Qed.

(** The fetch of the manifest has no such check: whatever the status, a
    body that decodes is saved as the manifest and the run goes on. *)
Lemma fetch_manifest_saves_any_response env args w status chunks :
  let url := match arg_ziplist args with
             | master_list => arg_master args
             | incremental_list => arg_incremental args
             end in
  http_get env (calls w) url = Response status chunks ->
  Utf8.valid (String.concat "" chunks) = true ->
  exists filename w',
    fetch_manifest env args w = Ok filename w'
    /\ fs w' !! filename = Some (String.concat "" chunks).
Proof.
  intros url Hr Hv. subst url. unfold fetch_manifest.
  destruct (arg_ziplist args);
    unfold requests_get, datetime_utcnow, print, write_stdout, open_write,
      file_append, log, mbind, M_bind, bind, ret; simpl; rewrite Hr; simpl;
    rewrite Hv; simpl; eexists; eexists; (split; [reflexivity|]); simpl;
    rewrite lookup_insert_eq, lookup_insert_eq; reflexivity.
Qed.

(** C3 at its failing input: the server answers the request for the
    incremental list with 404.  No exception is raised, the body of the
    error page is written to the manifest file, and the run ends with
    status 0. *)
Lemma manifest_fetch_ignores_status :
  let r := main Sample.env default_args Sample.empty_world in
  http_get Sample.env [] (arg_incremental default_args) = Response 404 ["Not Found"]
  /\ (exists w', r = Ok tt w')
  /\ exit_status r = 0%Z
  /\ fs (final r) !! "gdelt_incremental-file-01-02-2024-03-04-05.txt"
     = Some "Not Found"
  /\ calls (final r) = [CallGet (arg_incremental default_args); CallNow].
Proof.
  intros r. split; [vm_compute; reflexivity|].
  split; [eexists; vm_compute; reflexivity|].
  vm_compute. repeat split; reflexivity.
Qed.

(** ** The pipeline of [--mapgeo] *)

(** The filter keeps the documents in which the six fields it names are
    doubles, and only those. *)
Lemma matcher_keeps_six_doubles docs :
  Mongo.run_pipeline [matcher] docs
  = Mongo.Cursor (List.filter (fun d => forallb (is_double_field d) geo_fields) docs).
Proof.
  unfold matcher. cbn [Mongo.run_pipeline String.eqb Ascii.eqb Bool.eqb].
  assert (H : Mongo.filter_docs
                [("ActionGeo_Lat", type_double); ("ActionGeo_Lon", type_double);
                 ("Actor1Geo_Lat", type_double); ("Actor1Geo_Lon", type_double);
                 ("Actor2Geo_lat", type_double); ("Actor2Geo_Lon", type_double)] docs
              = Some (List.filter (fun d => forallb (is_double_field d) geo_fields) docs)).
  { induction docs as [|d r IH]; [reflexivity|].
    cbn [Mongo.filter_docs List.filter]. rewrite IH.
    unfold geo_fields, is_double_field, type_double.
    cbn [Mongo.match_conds Mongo.match_cond forallb String.eqb Ascii.eqb Bool.eqb].
    repeat match goal with
           | |- context [Mongo.lookup_field ?f d] =>
               destruct (Mongo.lookup_field f d); cbn [andb]
           | |- context [Mongo.has_type ?t ?v] =>
               destruct (Mongo.has_type t v); cbn [andb]
           end; reflexivity. }
  rewrite H. reflexivity.
Qed.

(** A document without [Actor2Geo_lat] does not pass the filter. *)
Lemma matcher_drops_missing_actor2_lat d :
  Mongo.lookup_field "Actor2Geo_lat" d = None ->
  Mongo.run_pipeline [matcher] [d] = Mongo.Cursor [].
Proof.
  intros H. rewrite matcher_keeps_six_doubles.
  cbn [List.filter forallb geo_fields]. unfold is_double_field at 5. rewrite H.
  rewrite !andb_false_r. reflexivity.
Qed.

(** C4 at its failing input: an event whose six fields named by the filter
    are doubles passes the filter, and the three points it is given hold
    null where the longitude should be, and null for both coordinates of
    the second actor: the stage that adds the points reads [..._Long] and
    [Actor2Geo_Lat], the filter tests [..._Lon] and [Actor2Geo_lat]. *)
Lemma mapgeo_points_miss_filtered_fields :
  Mongo.run_pipeline [matcher] [Sample.event_six] = Mongo.Cursor [Sample.event_six]
  /\ Mongo.run_pipeline mapgeo_pipeline [Sample.event_six; Sample.event_five]
     = Mongo.Out "events_geo"
         [(Sample.event_six
           ++ [("Actor1Geo", BDoc [("type", BString "Point");
                                   ("coordinates", BArray [BNull; BDouble 3])]);
               ("Actor2Geo", BDoc [("type", BString "Point");
                                   ("coordinates", BArray [BNull; BNull])]);
               ("ActionGeo", BDoc [("type", BString "Point");
                                   ("coordinates", BArray [BNull; BDouble 1])])])%list].
Proof. split; vm_compute; reflexivity. Qed.








(** ** Exit codes *)




(** * More of the script *)

(** ** Strings *)

Lemma append_cons c a b : String c a ++ b = String c (a ++ b).
Proof. reflexivity. Qed.


Lemma append_assoc a b c : (a ++ b) ++ c = a ++ (b ++ c).
Proof.
  induction a as [|x a IH]; [reflexivity|]. rewrite !append_cons, IH. reflexivity.
Qed.



(** ** [download_file] *)


Lemma status_ok_passes status :
  status_ok status -> ((400 <=? status) && (status <? 600))%Z = false.
Proof.
  intros [H|H].
  - apply andb_false_iff. left. apply Z.leb_gt. exact H.
  - apply andb_false_iff. right. apply Z.ltb_ge. exact H.
Qed.




Ltac run_bind H := rewrite (bind_Ok _ _ _ _ _ H); cbv beta.

Lemma requests_get_ok env url w status chunks :
  http_get env (calls w) url = Response status chunks ->
  requests_get env url w = Ok (status, chunks) (log (CallGet url) w).
Proof. intros H. unfold requests_get. rewrite H. reflexivity. Qed.

Lemma raise_for_status_ok status w :
  status_ok status -> raise_for_status status w = Ok tt w.
Proof. intros H. unfold raise_for_status. rewrite (status_ok_passes _ H). reflexivity. Qed.





(** X3.  A URL that ends in a slash.  Its local name is the empty string:
    the request is made, then opening the file fails, and the directory is
    as it was. *)
Theorem download_file_no_file_name env url w status chunks :
  http_get env (calls w) url = Response status chunks ->
  status_ok status ->
  local_path url = "" ->
  download_file env url w = Raise (FileNotFoundError "") (log (CallGet url) w).
Proof.
  intros Hr Hs Hn. unfold download_file.
  run_bind (requests_get_ok _ _ _ _ _ Hr). cbn [fst snd].
  run_bind (raise_for_status_ok _ (log (CallGet url) w) Hs).
  rewrite Hn. reflexivity.
Qed.

Lemma local_path_slash_end prefix : local_path (prefix ++ "/") = "".
Proof. apply (local_path_last_segment prefix ""). reflexivity. Qed.

(** ** The fetch step and fatal errors in the loop *)

Lemma print_ok s w :
  print s w = Ok tt (mkWorld (fs w) (mongo w) (stdout w ++ s ++ Py.nl) (calls w)).
Proof. reflexivity. Qed.



(** X5.  An HTTP error on an archive ends the run.  When the server answers
    the request for the archive of a line with a client or server error,
    the loop stops there with [HTTPError]: no file is written, no record is
    inserted, and the lines after it are never looked at. *)
Theorem archive_http_error_is_fatal env args l rest size md5 zip w status chunks :
  parse_line l w = Ok (size, md5, zip) w ->
  path_exists (local_path zip) w && negb (arg_overwrite args) = false ->
  http_get env (calls w) zip = Response status chunks ->
  (400 <= status < 600)%Z ->
  exists w',
    for_each (process_line env args) (l :: rest) w = Raise (HTTPError status) w'
    /\ fs w' = fs w
    /\ mongo w' = mongo w
    /\ calls w' = (calls w ++ [CallGet zip])%list.
Proof.
  intros Hp Hc Hr Hs.
  assert (Hf : exists w', fetch_step env args size md5 zip w = Raise (HTTPError status) w'
                          /\ fs w' = fs w /\ mongo w' = mongo w
                          /\ calls w' = (calls w ++ [CallGet zip])%list).
  { unfold fetch_step. rewrite Hc.
    rewrite (bind_Ok _ _ _ _ _ (print_ok _ w)); cbv beta.
    rewrite (bind_Ok _ _ _ _ _ (print_ok _ _)); cbv beta.
    rewrite (bind_Ok _ _ _ _ _ (print_ok _ _)); cbv beta.
    match goal with |- context [(download_file env zip ≫= _) ?w3] =>
      rewrite (bind_Raise _ _ _ _ _
                 (download_file_raises_before_writing env zip w3 status chunks Hr Hs))
    end.
    eexists. split; [reflexivity|]. repeat split. }
  destruct Hf as (w' & Hf & Hfs & Hmg & Hcalls).
  exists w'. split; [|repeat split; assumption].
  cbn [for_each].
  apply bind_Raise. unfold process_line. run_bind Hp.
  unfold process_entry. apply bind_Raise. exact Hf.
Qed.

(** ** Lines and UTF-8 *)








(** ** [extract_zip_file] *)

















(** X8.  What extraction never does.  Whatever the archive and however the
    extraction ends, it leaves the store as it is and makes no call but its
    own: no request, no insert. *)
Theorem extract_zip_file_local env path w :
  mongo (final (extract_zip_file env path w)) = mongo w
  /\ calls (final (extract_zip_file env path w)) = (calls w ++ [CallExtract path])%list.
Proof.
  split.
  - apply (mongo_extract_zip_file env (mongo w) path w eq_refl).
  - apply calls_extract_zip_file.
Qed.

(** ** Manifest lines *)














Lemma split_ws_blank l : blank l = true -> Py.split_ws l = [].
Proof.
  unfold Py.split_ws. induction l as [|c r IH]; [reflexivity|].
  cbn [blank]. intros H. apply andb_true_iff in H as [Hc Hr].
  cbn [Py.split_ws_aux]. rewrite Hc. apply IH, Hr.
Qed.

Lemma for_each_app {A} (body : A -> M unit) done rest w w1 :
  for_each body done w = Ok tt w1 ->
  for_each body (done ++ rest)%list w = for_each body rest w1.
Proof.
  revert w. induction done as [|x r IH]; intros w H.
  - injection H as <-. reflexivity.
  - cbn [app for_each] in *. unfold mbind, M_bind, bind in *.
    destruct (body x w) as [[] w'|e w'|c w']; try discriminate.
    apply IH, H.
Qed.

(** X10.  A blank line ends the run.  When the manifest has a line of blanks
    only (an empty last line, say), the loop processes the lines before
    it, then dies on that line with [ValueError], in the world the earlier
    lines left; the lines after it are never looked at. *)
Theorem blank_line_stops_loop env args done l rest w w1 :
  blank l = true ->
  for_each (process_line env args) done w = Ok tt w1 ->
  for_each (process_line env args) (done ++ l :: rest)%list w = Raise ValueError w1.
Proof.
  intros Hb Hd. rewrite (for_each_app _ _ _ _ _ Hd). cbn [for_each].
  apply bind_Raise. unfold process_line. apply bind_Raise.
  unfold parse_line. rewrite (split_ws_blank _ Hb). reflexivity.
Qed.

(** ** [local_path] *)

Lemma split_last_slash url :
  no_slash url = true
  \/ exists prefix name, url = prefix ++ String "/" name /\ no_slash name = true.
Proof.
  induction url as [|c r IH]; [left; reflexivity|].
  destruct IH as [Hr|(p & n & -> & Hn)].
  - destruct (Ascii.eqb c "/") eqn:Hc.
    + apply Ascii.eqb_eq in Hc. subst c. right. exists "", r. auto.
    + left. cbn [no_slash]. rewrite Hc, Hr. reflexivity.
  - right. exists (String c p), n. auto.
Qed.

(** X11.  The local name of a URL.  [local_path] cuts a URL after its last
    slash: the result has no slash in it, and the URL is the result behind
    a prefix that is empty or ends in a slash.  So a URL without a slash is
    its own local name, and a local name is a fixed point. *)
Theorem local_path_cuts_after_last_slash url :
  no_slash (local_path url) = true
  /\ (exists prefix,
        url = prefix ++ local_path url
        /\ (prefix = "" \/ exists p, prefix = p ++ "/"))
  /\ local_path (local_path url) = local_path url.
Proof.
  assert (Hself : forall n, no_slash n = true -> local_path n = n).
  { intros n Hn. unfold local_path. rewrite (split_on_no_slash _ Hn). reflexivity. }
  destruct (split_last_slash url) as [Hu|(p & n & -> & Hn)].
  - rewrite (Hself _ Hu). repeat split; auto. exists "". auto.
  - assert (Hl : local_path (p ++ String "/" n) = n).
    { unfold local_path. rewrite split_on_app, (split_on_no_slash _ Hn).
      apply List.last_last. }
    rewrite Hl. repeat split; auto.
    exists (p ++ "/"). split; [|right; exists p; reflexivity].
    rewrite append_assoc. reflexivity.
Qed.

(** ** Failures of a download *)

(** X12.  A download that fails early.  When the request fails, or is
    answered with a client or server error, [download_file] raises after
    the request and before it opens the local file: the directory is as it
    was. *)
Theorem download_file_fails_before_writing env url w :
  (http_get env (calls w) url = ConnectionFailed ->
   download_file env url w = Raise ConnectionError (log (CallGet url) w))
  /\ (forall status chunks,
        http_get env (calls w) url = Response status chunks ->
        (400 <= status < 600)%Z ->
        download_file env url w = Raise (HTTPError status) (log (CallGet url) w)).
Proof.
  split.
  - intros H. unfold download_file. apply bind_Raise.
    unfold requests_get. rewrite H. reflexivity.
  - intros status chunks Hr Hs. unfold download_file.
    run_bind (requests_get_ok _ _ _ _ _ Hr). apply bind_Raise.
    unfold raise_for_status. cbn [fst].
    replace ((400 <=? status) && (status <? 600))%Z with true; [reflexivity|].
    symmetry. apply andb_true_iff. split; [apply Z.leb_le|apply Z.ltb_lt]; lia.
Qed.

(** ** The manifest *)






(** ** The pipeline, stage by stage *)

Lemma set_field_fresh {A} k (v : A) d :
  Mongo.lookup_field k d = None -> Mongo.set_field k v d = (d ++ [(k, v)])%list.
Proof.
  induction d as [|[k' v'] r IH]; [reflexivity|].
  cbn [Mongo.lookup_field Mongo.set_field app].
  destruct (String.eqb k k'); [discriminate|]. intros H. rewrite (IH H). reflexivity.
Qed.

Lemma lookup_field_app {A} k (d e : list (string * A)) :
  Mongo.lookup_field k (d ++ e)%list
  = match Mongo.lookup_field k d with
    | Some v => Some v
    | None => Mongo.lookup_field k e
    end.
Proof.
  induction d as [|[k' v'] r IH]; [reflexivity|].
  cbn [app Mongo.lookup_field]. destruct (String.eqb k k'); [reflexivity|exact IH].
Qed.

Lemma filter_docs_geo docs :
  Mongo.filter_docs
    [("ActionGeo_Lat", type_double); ("ActionGeo_Lon", type_double);
     ("Actor1Geo_Lat", type_double); ("Actor1Geo_Lon", type_double);
     ("Actor2Geo_lat", type_double); ("Actor2Geo_Lon", type_double)] docs
  = Some (List.filter (fun d => forallb (is_double_field d) geo_fields) docs).
Proof.
  induction docs as [|d r IH]; [reflexivity|].
  cbn [Mongo.filter_docs List.filter]. rewrite IH.
  unfold geo_fields, is_double_field, type_double.
  cbn [Mongo.match_conds Mongo.match_cond forallb String.eqb Ascii.eqb Bool.eqb].
  repeat match goal with
         | |- context [Mongo.lookup_field ?f d] =>
             destruct (Mongo.lookup_field f d); cbn [andb]
         | |- context [Mongo.has_type ?t ?v] =>
             destruct (Mongo.has_type t v); cbn [andb]
         end; reflexivity.
Qed.

Lemma add_fields_points d :
  has_no_point d ->
  Mongo.add_fields
    (PDict [("Actor1Geo", point "$Actor1Geo_Long" "$Actor1Geo_Lat");
            ("Actor2Geo", point "$Actor2Geo_Long" "$Actor2Geo_Lat");
            ("ActionGeo", point "$ActionGeo_Long" "$ActionGeo_Lat")]) d
  = Some (with_points d).
Proof.
  intros (H1 & H2 & H3). unfold Mongo.add_fields, point.
  cbn [Mongo.apply_spec]. rewrite H1.
  cbn [Mongo.lookup_field Mongo.set_field Mongo.eval_expr map default
       String.eqb Ascii.eqb Bool.eqb].
  rewrite (set_field_fresh "Actor1Geo" _ d H1).
  rewrite !lookup_field_app, H2.
  cbn [Mongo.lookup_field Mongo.set_field String.eqb Ascii.eqb Bool.eqb].
  rewrite (set_field_fresh "Actor2Geo")
    by (rewrite lookup_field_app, H2; reflexivity).
  rewrite !lookup_field_app, H3.
  cbn [Mongo.lookup_field Mongo.set_field String.eqb Ascii.eqb Bool.eqb].
  rewrite (set_field_fresh "ActionGeo")
    by (rewrite !lookup_field_app, H3; reflexivity).
  unfold with_points, point_of. rewrite <- !app_assoc. reflexivity.
Qed.

Lemma map_docs_points docs :
  Forall has_no_point docs ->
  Mongo.map_docs
    (Mongo.add_fields
       (PDict [("Actor1Geo", point "$Actor1Geo_Long" "$Actor1Geo_Lat");
               ("Actor2Geo", point "$Actor2Geo_Long" "$Actor2Geo_Lat");
               ("ActionGeo", point "$ActionGeo_Long" "$ActionGeo_Lat")])) docs
  = Some (map with_points docs).
Proof.
  induction 1 as [|d r Hd _ IH]; [reflexivity|].
  cbn [Mongo.map_docs map]. rewrite (add_fields_points d Hd), IH. reflexivity.
Qed.

(** X16.  What the pipeline writes.  On events that have no field named
    [Actor1Geo], [Actor2Geo] or [ActionGeo] yet, the pipeline keeps, in
    their order, the events whose six filter fields are doubles, and gives
    each of them, after all its fields as they were, three points whose
    coordinates are the values of the [..._Long] and [..._Lat] fields of
    the event, null where the event has no such field; that list goes to
    [events_geo]. *)
Theorem mapgeo_pipeline_result docs :
  Forall has_no_point docs ->
  Mongo.run_pipeline mapgeo_pipeline docs
  = Mongo.Out "events_geo"
      (map with_points
           (List.filter (fun d => forallb (is_double_field d) geo_fields) docs)).
Proof.
  intros H. unfold mapgeo_pipeline, matcher, adder.
  cbn [Mongo.run_pipeline String.eqb Ascii.eqb Bool.eqb].
  rewrite filter_docs_geo, map_docs_points; [reflexivity|].
  apply List.Forall_forall. intros d Hd. apply List.filter_In in Hd as [Hd _].
  rewrite List.Forall_forall in H. apply H, Hd.
Qed.

(** ** One entry from the request to the extracted files *)



(** ** The properties above on the sample worlds *)

Ltac by_compute := vm_compute; first [reflexivity | intros H; discriminate H].

Ltac conjs :=
  repeat match goal with |- _ /\ _ => split end; first [assumption | lia].



Lemma download_file_no_file_name_witness :
  let w := Sample.empty_world in
  (http_get Cases.env (calls w) Cases.slash_url = Response 200 ["index"]
   /\ status_ok 200 /\ local_path Cases.slash_url = "")
  /\ download_file Cases.env Cases.slash_url w
     = Raise (FileNotFoundError "") (log (CallGet Cases.slash_url) w).
Proof.
  intros w.
  assert (Hr : http_get Cases.env (calls w) Cases.slash_url = Response 200 ["index"])
    by reflexivity.
  assert (Hs : status_ok 200) by (left; lia).
  assert (Hn : local_path Cases.slash_url = "") by by_compute.
  split; [conjs|].
  exact (download_file_no_file_name Cases.env Cases.slash_url w 200 ["index"] Hr Hs Hn).
Defined.

Lemma download_file_fails_before_writing_witness :
  let w := Sample.empty_world in
  (http_get Cases.env (calls w) Cases.down_url = ConnectionFailed
   /\ http_get Cases.env (calls w) Cases.gone_url = Response 404 ["Not Found"]
   /\ (400 <= 404 < 600)%Z)
  /\ download_file Cases.env Cases.down_url w
     = Raise ConnectionError (log (CallGet Cases.down_url) w)
  /\ download_file Cases.env Cases.gone_url w
     = Raise (HTTPError 404) (log (CallGet Cases.gone_url) w).
Proof.
  intros w.
  assert (Hd : http_get Cases.env (calls w) Cases.down_url = ConnectionFailed)
    by reflexivity.
  assert (Hg : http_get Cases.env (calls w) Cases.gone_url = Response 404 ["Not Found"])
    by reflexivity.
  assert (Hs : (400 <= 404 < 600)%Z) by lia.
  split; [conjs|]. split.
  - exact (proj1 (download_file_fails_before_writing Cases.env Cases.down_url w) Hd).
  - exact (proj2 (download_file_fails_before_writing Cases.env Cases.gone_url w)
                 404%Z ["Not Found"] Hg Hs).
Defined.


Lemma archive_http_error_is_fatal_witness :
  let w := Sample.empty_world in
  (parse_line Cases.gone_line w = Ok (7%Z, Sample.checksum, Cases.gone_url) w
   /\ path_exists (local_path Cases.gone_url) w
      && negb (arg_overwrite default_args) = false
   /\ http_get Cases.env (calls w) Cases.gone_url = Response 404 ["Not Found"]
   /\ (400 <= 404 < 600)%Z)
  /\ exists w',
       for_each (process_line Cases.env default_args) [Cases.gone_line; Sample.line] w
       = Raise (HTTPError 404) w'
       /\ fs w' = fs w
       /\ mongo w' = mongo w
       /\ calls w' = (calls w ++ [CallGet Cases.gone_url])%list.
Proof.
  intros w.
  assert (Hp : parse_line Cases.gone_line w
               = Ok (7%Z, Sample.checksum, Cases.gone_url) w) by by_compute.
  assert (Hc : path_exists (local_path Cases.gone_url) w
               && negb (arg_overwrite default_args) = false) by by_compute.
  assert (Hr : http_get Cases.env (calls w) Cases.gone_url
               = Response 404 ["Not Found"]) by reflexivity.
  assert (Hs : (400 <= 404 < 600)%Z) by lia.
  split; [conjs|].
  exact (archive_http_error_is_fatal Cases.env default_args Cases.gone_line
           [Sample.line] 7 Sample.checksum Cases.gone_url w 404 ["Not Found"]
           Hp Hc Hr Hs).
Defined.




Lemma blank_line_stops_loop_witness :
  let w := Sample.empty_world in
  let w1 := final (for_each (process_line Sample.env default_args) [Sample.line] w) in
  (blank Py.nl = true
   /\ Py.text_lines (Sample.line ++ Py.nl ++ Sample.broken_line)
      = [Sample.line; Py.nl; Sample.broken_line]
   /\ for_each (process_line Sample.env default_args) [Sample.line] w = Ok tt w1)
  /\ for_each (process_line Sample.env default_args)
              ([Sample.line] ++ Py.nl :: [Sample.broken_line])%list w
     = Raise ValueError w1.
Proof.
  intros w w1.
  assert (Hb : blank Py.nl = true) by reflexivity.
  assert (Ht : Py.text_lines (Sample.line ++ Py.nl ++ Sample.broken_line)
               = [Sample.line; Py.nl; Sample.broken_line]) by by_compute.
  assert (Hd : for_each (process_line Sample.env default_args) [Sample.line] w
               = Ok tt w1) by by_compute.
  split; [conjs|].
  exact (blank_line_stops_loop Sample.env default_args [Sample.line] Py.nl
           [Sample.broken_line] w w1 Hb Hd).
Defined.




Lemma mapgeo_pipeline_result_witness :
  let docs := [Sample.event_six; Sample.event_five] in
  Forall has_no_point docs
  /\ Mongo.run_pipeline mapgeo_pipeline docs
     = Mongo.Out "events_geo"
         (map with_points
              (List.filter (fun d => forallb (is_double_field d) geo_fields) docs)).
Proof.
  intros docs.
  assert (H : Forall has_no_point docs) by (repeat constructor).
  split; [exact H|]. exact (mapgeo_pipeline_result docs H).
Defined.


(** ** A reused file that is no archive, and [--mapgeo] twice *)

(** X18.  A reused file that is no archive.  When the file of an entry is
    already there, [--overwrite] is off and the file does not decode as a
    zip archive, the pass dies with [BadZipFile]: no request was made, no
    record is inserted and the directory is as it was. *)
Theorem reused_non_archive_is_fatal env args l size md5 zip w data :
  fs w !! local_path zip = Some data ->
  arg_overwrite args = false ->
  unzip env data = None ->
  exists w',
    process_entry env args l size md5 zip w = Raise BadZipFile w'
    /\ fs w' = fs w
    /\ mongo w' = mongo w
    /\ calls w' = (calls w ++ [CallExtract (local_path zip)])%list.
Proof.
  intros Hf Ho Hu.
  assert (He : path_exists (local_path zip) w = true).
  { apply path_exists_has_file. unfold has_file. rewrite Hf. eauto. }
  rewrite (process_entry_reuse env args l size md5 zip w _ _
             (fetch_step_reuse env args size md5 zip w He Ho)).
  unfold unzip_step. run_bind (print_ok ("Unzipping: '" ++ local_path zip ++ "'")
    (mkWorld (fs w) (mongo w)
       (stdout w ++ ("File '" ++ local_path zip ++ "'exists locally") ++ Py.nl)
       (calls w))).
  eexists. split.
  - apply bind_Raise. unfold extract_zip_file. apply bind_Raise.
    unfold zipfile_ZipFile, read_file, mbind, M_bind, bind. cbn [fs log].
    rewrite Hf, Hu. reflexivity.
  - repeat split.
Qed.

Lemma reused_non_archive_is_fatal_witness :
  let w := Cases.garbage_world in
  (fs w !! local_path Sample.url = Some "garbage"
   /\ arg_overwrite default_args = false
   /\ unzip Sample.env "garbage" = None)
  /\ exists w',
       process_entry Sample.env default_args Sample.line 1024 Sample.checksum
         Sample.url w = Raise BadZipFile w'
       /\ fs w' = fs w
       /\ mongo w' = mongo w
       /\ calls w' = (calls w ++ [CallExtract (local_path Sample.url)])%list.
Proof.
  intros w.
  assert (Hf : fs w !! local_path Sample.url = Some "garbage") by by_compute.
  assert (Ho : arg_overwrite default_args = false) by reflexivity.
  assert (Hu : unzip Sample.env "garbage" = None) by reflexivity.
  split; [conjs|].
  exact (reused_non_archive_is_fatal Sample.env default_args Sample.line 1024
           Sample.checksum Sample.url w "garbage" Hf Ho Hu).
Defined.


